(** * Wrap protocol deployment script (src/deploy.py, src/token.py)

    A shallow embedding of the metadata encoder [_metadata_encode], of the
    three initial-storage builders of class [Deploy] and of the deployment
    sequence [Deploy.run], together with the parts of Python they rest on:
    [str] / [bytes] conversions, insertion-ordered [dict]s and the [json]
    module's encoder and decoder.

    Python values are modelled by [Py.pyval].  Floating-point numbers are
    not part of the embedding. *)

From Stdlib Require Import String Ascii.
From Stdlib Require Import ZArith NArith Bool Lia List.
From Stdlib.Strings Require Import Byte.
From Stdlib Require DecimalFacts DecimalPos.
From Stdlib Require Import DecimalZ.
Import ListNotations.

Set Warnings "-register-all".

(* ===================================================================== *)
(** * Python values, strings, bytes and exceptions *)
(* ===================================================================== *)

Module Py.

(** A Python [str] is a sequence of Unicode code points (lone surrogates
    included, as in CPython). *)
Definition pystr := list N.

(** An ASCII literal of the source. *)
Definition lit (s : string) : pystr := map N_of_ascii (list_ascii_of_string s).

Definition str_eqb (a b : pystr) : bool :=
  if list_eq_dec N.eq_dec a b then true else false.

(** Exceptions that the modelled code can raise.  [Error cls msg] stands
    for any exception raised by a collaborator (network client, contract
    compiler). *)
Inductive exn : Type :=
| TypeError (msg : pystr)
| ValueError (msg : pystr)
| UnicodeEncodeError
| UnicodeDecodeError
| JSONDecodeError (msg : pystr)
| AttributeError (msg : pystr)
| RecursionError
| NotModelled (what : pystr)
| Error (cls msg : pystr).

Inductive result (A : Type) : Type :=
| Ok (a : A)
| Raise (e : exn).
Arguments Ok {A} a.
Arguments Raise {A} e.

Definition bind {A B} (m : result A) (k : A -> result B) : result B :=
  match m with
  | Ok a => k a
  | Raise e => Raise e
  end.

Definition mapM {A B} (f : A -> result B) : list A -> result (list B) :=
  fix go (l : list A) : result (list B) :=
    match l with
    | [] => Ok []
    | x :: l' => bind (f x) (fun y => bind (go l') (fun ys => Ok (y :: ys)))
    end.

(** Python objects.  [PyDict] keeps its items in insertion order;
    [PyObject cls] is an instance of any class other than the ones listed
    ([bytes], [set], a user class, ...). *)
Inductive pyval : Type :=
| PyNone
| PyBool (b : bool)
| PyInt (z : Z)
| PyStr (s : pystr)
| PyList (l : list pyval)
| PyTuple (l : list pyval)
| PyDict (items : list (pyval * pyval))
| PyObject (cls : pystr).

(** [type(o).__name__] *)
Definition class_name (o : pyval) : pystr :=
  match o with
  | PyNone => lit "NoneType"
  | PyBool _ => lit "bool"
  | PyInt _ => lit "int"
  | PyStr _ => lit "str"
  | PyList _ => lit "list"
  | PyTuple _ => lit "tuple"
  | PyDict _ => lit "dict"
  | PyObject cls => cls
  end.

(** ** dict *)

Definition int_of_bool (b : bool) : Z := if b then 1%Z else 0%Z.

(** Equality of dictionary keys ([==] on hashable values: [True == 1],
    tuples compare element-wise).  Instances of other classes compare by
    identity and are never equal to a key built elsewhere. *)
Fixpoint key_eqb (a b : pyval) {struct a} : bool :=
  match a, b with
  | PyNone, PyNone => true
  | PyBool x, PyBool y => Bool.eqb x y
  | PyBool x, PyInt y => Z.eqb (int_of_bool x) y
  | PyInt x, PyBool y => Z.eqb x (int_of_bool y)
  | PyInt x, PyInt y => Z.eqb x y
  | PyStr x, PyStr y => str_eqb x y
  | PyTuple x, PyTuple y =>
      (fix go (x y : list pyval) {struct x} : bool :=
         match x, y with
         | [], [] => true
         | a :: x', b :: y' => key_eqb a b && go x' y'
         | _, _ => false
         end) x y
  | _, _ => false
  end.

Definition items := list (pyval * pyval).

(** [d[k] = v]: an existing key keeps its position and gets the new value,
    a new key is appended. *)
Fixpoint dict_setitem (d : items) (k v : pyval) : items :=
  match d with
  | [] => [(k, v)]
  | (k', v') :: d' =>
      if key_eqb k' k then (k', v) :: d' else (k', v') :: dict_setitem d' k v
  end.

(** [dict(pairs)] *)
Definition dict_of_pairs (pairs : items) : items :=
  fold_left (fun d kv => dict_setitem d (fst kv) (snd kv)) pairs [].

(** [d.get(k)] *)
Fixpoint dict_get (d : items) (k : pyval) : option pyval :=
  match d with
  | [] => None
  | (k', v) :: d' => if key_eqb k' k then Some v else dict_get d' k
  end.

(** [o[k]] on a dictionary *)
Definition getitem (o k : pyval) : option pyval :=
  match o with
  | PyDict d => dict_get d k
  | _ => None
  end.

(** [enumerate(l)] *)
Definition enumerate {A} (l : list A) : list (Z * A) :=
  combine (map Z.of_nat (seq 0 (List.length l))) l.

(** ** bytes *)

Definition bytes := list byte.

Definition byte_of_N (n : N) : byte :=
  match Byte.of_N (n mod 256) with
  | Some b => b
  | None => x00
  end.

Definition hexdigit (n : N) : N := (if n <? 10 then 48 + n else 87 + n)%N.

(** [bytes.hex()]: two lower-case digits per byte. *)
Definition bytes_hex (b : bytes) : pystr :=
  flat_map (fun x => let n := Byte.to_N x in
                     [hexdigit (n / 16); hexdigit (n mod 16)]) b.

Definition is_surrogate (c : N) : bool := ((0xD800 <=? c) && (c <=? 0xDFFF))%N.

(** The UTF-8 bytes of one code point. *)
Definition utf8_cp (c : N) : bytes :=
  (if c <? 0x80 then [byte_of_N c]
   else if c <? 0x800 then
     [byte_of_N (N.lor 0xC0 (N.shiftr c 6));
      byte_of_N (N.lor 0x80 (N.land c 0x3F))]
   else if c <? 0x10000 then
     [byte_of_N (N.lor 0xE0 (N.shiftr c 12));
      byte_of_N (N.lor 0x80 (N.land (N.shiftr c 6) 0x3F));
      byte_of_N (N.lor 0x80 (N.land c 0x3F))]
   else
     [byte_of_N (N.lor 0xF0 (N.shiftr c 18));
      byte_of_N (N.lor 0x80 (N.land (N.shiftr c 12) 0x3F));
      byte_of_N (N.lor 0x80 (N.land (N.shiftr c 6) 0x3F));
      byte_of_N (N.lor 0x80 (N.land c 0x3F))])%N.

(** The strict UTF-8 codec refuses surrogates. *)
Definition utf8_encode_cp (c : N) : result bytes :=
  if is_surrogate c then Raise UnicodeEncodeError else Ok (utf8_cp c).

(** [str.encode()] (UTF-8, strict) *)
Definition str_encode (s : pystr) : result bytes :=
  bind (mapM utf8_encode_cp s) (fun bs => Ok (concat bs)).

(** [bytes.fromhex(s)]: pairs of hexadecimal digits, ASCII whitespace
    between pairs is skipped. *)
Definition hexval (c : N) : option N :=
  (if (48 <=? c) && (c <=? 57) then Some (c - 48)
   else if (97 <=? c) && (c <=? 102) then Some (c - 87)
   else if (65 <=? c) && (c <=? 70) then Some (c - 55)
   else None)%N.

Definition is_ascii_space (c : N) : bool :=
  ((c =? 32) || ((9 <=? c) && (c <=? 13)))%N.

Definition fromhex_error : exn :=
  ValueError (lit "non-hexadecimal number found in fromhex() arg").

Fixpoint bytes_fromhex (s : pystr) : result bytes :=
  match s with
  | [] => Ok []
  | c :: s' =>
      if is_ascii_space c then bytes_fromhex s'
      else
        match s' with
        | [] => Raise fromhex_error
        | d :: s'' =>
            match hexval c, hexval d with
            | Some h, Some l =>
                bind (bytes_fromhex s'') (fun bs => Ok (byte_of_N (16 * h + l) :: bs))
            | _, _ => Raise fromhex_error
            end
        end
  end.

(** [bytes.decode()] (UTF-8, strict): shortest forms only, no surrogates,
    nothing above U+10FFFF. *)
Definition is_cont (b : byte) : bool :=
  let n := Byte.to_N b in ((0x80 <=? n) && (n <=? 0xBF))%N.

Definition cont_bits (b : byte) : N := N.land (Byte.to_N b) 0x3F.

Fixpoint bytes_decode (b : bytes) : result pystr :=
  match b with
  | [] => Ok []
  | b0 :: r0 =>
      let n0 := Byte.to_N b0 in
      (if n0 <? 0x80 then bind (bytes_decode r0) (fun s => Ok (n0 :: s))
       else if n0 <? 0xC2 then Raise UnicodeDecodeError
       else if n0 <? 0xE0 then
         match r0 with
         | b1 :: r1 =>
             if is_cont b1 then
               bind (bytes_decode r1) (fun s =>
                 Ok (N.lor (N.shiftl (N.land n0 0x1F) 6) (cont_bits b1) :: s))
             else Raise UnicodeDecodeError
         | _ => Raise UnicodeDecodeError
         end
       else if n0 <? 0xF0 then
         match r0 with
         | b1 :: b2 :: r2 =>
             let c := N.lor (N.shiftl (N.land n0 0x0F) 12)
                        (N.lor (N.shiftl (cont_bits b1) 6) (cont_bits b2)) in
             if is_cont b1 && is_cont b2 && (0x800 <=? c) && negb (is_surrogate c)
             then bind (bytes_decode r2) (fun s => Ok (c :: s))
             else Raise UnicodeDecodeError
         | _ => Raise UnicodeDecodeError
         end
       else if n0 <? 0xF5 then
         match r0 with
         | b1 :: b2 :: b3 :: r3 =>
             let c := N.lor (N.shiftl (N.land n0 0x07) 18)
                        (N.lor (N.shiftl (cont_bits b1) 12)
                           (N.lor (N.shiftl (cont_bits b2) 6) (cont_bits b3))) in
             if is_cont b1 && is_cont b2 && is_cont b3
                && (0x10000 <=? c) && (c <=? 0x10FFFF)
             then bind (bytes_decode r3) (fun s => Ok (c :: s))
             else Raise UnicodeDecodeError
         | _ => Raise UnicodeDecodeError
         end
       else Raise UnicodeDecodeError)%N
  end.

(** ** int to str *)

Fixpoint uint_chars (u : Decimal.uint) : pystr :=
  match u with
  | Decimal.Nil => []
  | Decimal.D0 u => 48%N :: uint_chars u
  | Decimal.D1 u => 49%N :: uint_chars u
  | Decimal.D2 u => 50%N :: uint_chars u
  | Decimal.D3 u => 51%N :: uint_chars u
  | Decimal.D4 u => 52%N :: uint_chars u
  | Decimal.D5 u => 53%N :: uint_chars u
  | Decimal.D6 u => 54%N :: uint_chars u
  | Decimal.D7 u => 55%N :: uint_chars u
  | Decimal.D8 u => 56%N :: uint_chars u
  | Decimal.D9 u => 57%N :: uint_chars u
  end.

(** [str(z)] / [int.__repr__(z)] *)
Definition int_str (z : Z) : pystr :=
  match Z.to_int z with
  | Decimal.Pos u => uint_chars u
  | Decimal.Neg u => 45%N :: uint_chars u
  end.

End Py.

Export Py.

Declare Scope py_scope.
Delimit Scope py_scope with py.
Notation "x <- m ;; k" := (Py.bind m (fun x => k))
  (at level 61, m at next level, right associativity) : py_scope.
Open Scope py_scope.

(* ===================================================================== *)
(** * The [json] module *)
(* ===================================================================== *)

Module Json.

Local Open Scope N_scope.

(** ** Encoder: [json.dumps(o, indent=n)]

    With an integer [indent] the pure-Python encoder [_make_iterencode] of
    json/encoder.py is used, with [ensure_ascii=True], [skipkeys=False],
    [sort_keys=False] and the separators [(',', ': ')]. *)

Definition hex4 (n : N) : pystr :=
  [hexdigit (n / 4096 mod 16); hexdigit (n / 256 mod 16);
   hexdigit (n / 16 mod 16); hexdigit (n mod 16)].

(** ['\\u{0:04x}'.format(n)] for [n < 0x10000] *)
Definition u_escape (n : N) : pystr := 92 :: 117 :: hex4 n.

(** [ESCAPE_DCT] and the function [replace] of
    [py_encode_basestring_ascii]: what one character becomes. *)
Definition escape_char (c : N) : pystr :=
  if c =? 34 then [92; 34]
  else if c =? 92 then [92; 92]
  else if c =? 8 then [92; 98]
  else if c =? 12 then [92; 102]
  else if c =? 10 then [92; 110]
  else if c =? 13 then [92; 114]
  else if c =? 9 then [92; 116]
  else if (32 <=? c) && (c <=? 126) then [c]
  else if c <? 0x10000 then u_escape c
  else
    let n := c - 0x10000 in
    u_escape (N.lor 0xd800 (N.land (N.shiftr n 10) 0x3ff))
    ++ u_escape (N.lor 0xdc00 (N.land n 0x3ff)).

Definition encode_basestring_ascii (s : pystr) : pystr :=
  34 :: flat_map escape_char s ++ [34].

(** [sep.join(chunks)] *)
Fixpoint join (sep : pystr) (chunks : list pystr) : pystr :=
  match chunks with
  | [] => []
  | [c] => c
  | c :: cs => c ++ sep ++ join sep cs
  end.

(** Dictionary keys are coerced to strings; other keys are refused. *)
Definition key_str (k : pyval) : result pystr :=
  match k with
  | PyStr s => Ok s
  | PyBool true => Ok (lit "true")
  | PyBool false => Ok (lit "false")
  | PyNone => Ok (lit "null")
  | PyInt z => Ok (int_str z)
  | _ => Raise (TypeError (lit "keys must be str, int, float, bool or None, not "
                           ++ class_name k))
  end.

Section Encoder.

Variable indent : nat.

Definition newline_indent (level : nat) : pystr :=
  10 :: repeat 32 (indent * level)%nat.

Definition item_separator : pystr := [44].
Definition key_separator : pystr := [58; 32].

(** [_iterencode], [_iterencode_list] and [_iterencode_dict], with the
    yielded chunks concatenated; [level] is [_current_indent_level]. *)
Fixpoint _iterencode (o : pyval) (level : nat) {struct o} : result pystr :=
  match o with
  | PyStr s => Ok (encode_basestring_ascii s)
  | PyNone => Ok (lit "null")
  | PyBool true => Ok (lit "true")
  | PyBool false => Ok (lit "false")
  | PyInt z => Ok (int_str z)
  | PyList [] | PyTuple [] => Ok (lit "[]")
  | PyList l | PyTuple l =>
      chunks <- mapM (fun v => _iterencode v (S level)) l ;;
      Ok ([91] ++ newline_indent (S level)
          ++ join (item_separator ++ newline_indent (S level)) chunks
          ++ newline_indent level ++ [93])
  | PyDict [] => Ok (lit "{}")
  | PyDict d =>
      chunks <- mapM (fun kv =>
                        match kv with
                        | (k, v) =>
                            key <- key_str k ;;
                            c <- _iterencode v (S level) ;;
                            Ok (encode_basestring_ascii key ++ key_separator ++ c)
                        end) d ;;
      Ok ([123] ++ newline_indent (S level)
          ++ join (item_separator ++ newline_indent (S level)) chunks
          ++ newline_indent level ++ [125])
  | PyObject cls =>
      Raise (TypeError (lit "Object of type " ++ cls
                        ++ lit " is not JSON serializable"))
  end.

(** [JSONEncoder.encode] *)
Definition dumps (o : pyval) : result pystr := _iterencode o 0.

End Encoder.

(** ** Decoder: [json.loads(s)] for a [str]

    json/decoder.py and json/scanner.py with the default hooks and
    [strict=True].  An index into the text is modelled by the suffix that
    starts there.  Literals that denote a [float] are outside the
    embedding and answer [NotModelled]. *)



Fixpoint starts_with (p s : pystr) : bool :=
  match p, s with
  | [], _ => true
  | a :: p', b :: s' => (a =? b) && starts_with p' s'
  | _ :: _, [] => false
  end.

Definition decode_error (msg : string) : exn := JSONDecodeError (lit msg).

(** [_decode_uXXXX]: the four hexadecimal digits after [\u]. *)
Definition decode_uXXXX (s : pystr) : result (N * pystr) :=
  match s with
  | a :: b :: c :: d :: s' =>
      match hexval a, hexval b, hexval c, hexval d with
      | Some a, Some b, Some c, Some d => Ok (((a * 16 + b) * 16 + c) * 16 + d, s')
      | _, _, _, _ => Raise (decode_error "Invalid \uXXXX escape")
      end
  | _ => Raise (decode_error "Invalid \uXXXX escape")
  end.

(** The table [BACKSLASH]. *)
Definition backslash (esc : N) : option N :=
  if esc =? 34 then Some 34
  else if esc =? 92 then Some 92
  else if esc =? 47 then Some 47
  else if esc =? 98 then Some 8
  else if esc =? 102 then Some 12
  else if esc =? 110 then Some 10
  else if esc =? 114 then Some 13
  else if esc =? 116 then Some 9
  else None.

Definition is_high_surrogate (c : N) : bool := (0xd800 <=? c) && (c <=? 0xdbff).
Definition is_low_surrogate (c : N) : bool := (0xdc00 <=? c) && (c <=? 0xdfff).

(** After a [\uXXXX] escape that gave [uni]: a high surrogate followed by
    an escape that gives a low surrogate is one character, and both
    escapes are consumed. *)
Definition pair_surrogates (uni : N) (s : pystr) : result (N * pystr) :=
  if is_high_surrogate uni && starts_with [92; 117] s then
    r <- decode_uXXXX (skipn 2 s) ;;
    let (uni2, s') := r in
    if is_low_surrogate uni2 then
      Ok (0x10000 + N.lor (N.shiftl (uni - 0xd800) 10) (uni2 - 0xdc00), s')
    else Ok (uni, s)
  else Ok (uni, s).

(** [py_scanstring(s, end, strict=True)], started after the opening quote:
    the decoded string and the text after the closing quote. *)
Fixpoint scanstring (fuel : nat) (s : pystr) {struct fuel} : result (pystr * pystr) :=
  match fuel with
  | O => Raise RecursionError
  | S fuel' =>
      match s with
      | [] => Raise (decode_error "Unterminated string starting at")
      | c :: s1 =>
          if c =? 34 then Ok ([], s1)
          else if c =? 92 then
            match s1 with
            | [] => Raise (decode_error "Unterminated string starting at")
            | esc :: s2 =>
                if esc =? 117 then
                  r <- decode_uXXXX s2 ;;
                  let (uni, s3) := r in
                  r' <- pair_surrogates uni s3 ;;
                  let (char, s') := r' in
                  t <- scanstring fuel' s' ;;
                  Ok (char :: fst t, snd t)
                else
                  match backslash esc with
                  | Some char =>
                      t <- scanstring fuel' s2 ;;
                      Ok (char :: fst t, snd t)
                  | None => Raise (decode_error "Invalid \escape")
                  end
            end
          else if c <? 32 then Raise (decode_error "Invalid control character at")
          else
            t <- scanstring fuel' s1 ;;
            Ok (c :: fst t, snd t)
      end
  end.








Section Containers.

(** [scan_once], as handed to [JSONArray] and [JSONObject]. *)
Variable scan : pystr -> result (pyval * pystr).





End Containers.



End Json.

(* ===================================================================== *)
(** * src/deploy.py *)
(* ===================================================================== *)

(** [class TokenType(TypedDict)] *)
Record TokenType : Type := {
  eth_contract : pystr;
  eth_symbol : pystr;
  symbol : pystr;
  name : pystr;
  decimals : Z
}.

Definition str_ (s : string) : pyval := PyStr (lit s).

(** [_metadata_encode] *)
Definition _metadata_encode (content : pyval) : result pyval :=
  text <- Json.dumps 2 content ;;
  encoded <- str_encode text ;;
  let meta_content := bytes_hex encoded in
  uri <- str_encode (lit "tezos-storage:content") ;;
  let meta_uri := bytes_hex uri in
  Ok (PyDict [(str_ "", PyStr meta_uri); (str_ "content", PyStr meta_content)]).

(** [s.encode().hex()] *)
Definition encode_hex (s : pystr) : result pyval :=
  encoded <- str_encode s ;;
  Ok (PyStr (bytes_hex encoded)).

(** The three contracts that [Deploy.__init__] loads. *)
Inductive contract : Type := FA2 | Quorum | Minter.

(** What [Deploy] reaches through [self.utils], through the contract
    objects and through the modules [src.ligo] and [src.minter]: the
    network client, the contract compiler and the minter wrapper.  None of
    them is defined in deploy.py; each call that touches the network or
    the compiler transforms the state [World] and may raise. *)
Record Collaborators : Type := {
  World : Type;
  Code : Type;
  Micheline : Type;
  (** [self.utils.client.key.public_key_hash()] *)
  public_key_hash : pystr;
  (** [self.fa2_contract.code] and the like *)
  contract_code : contract -> Code;
  (** [self.fa2_contract.storage.encode(...)] and the like *)
  storage_encode : contract -> pyval -> result Micheline;
  (** [LigoView(path).compile(name, return_type, description)] *)
  views_compile : pystr -> pystr -> pystr -> pystr -> World -> result pyval * World;
  (** [self.utils.originate(code, storage)] *)
  originate : Code -> Micheline -> World -> result pystr * World;
  (** [Minter(self.utils).confirm_admin(minter, fa2_contract)] *)
  confirm_admin : pystr -> pystr -> World -> result unit * World
}.

Module Deploy.

Section Methods.

Variable C : Collaborators.

(** Operations sent to the network, in the order they were sent, each
    with its outcome. *)
Inductive event : Type :=
| Originated (code : Code C) (storage : Micheline C) (outcome : result pystr)
| AdminConfirmed (minter fa2_contract : pystr) (outcome : result unit).

Record state : Type := {
  world : World C;
  sent : list event;
  stdout : list pystr
}.

(** A method body: it may raise, and it changes the state either way. *)
Definition M (A : Type) : Type := state -> result A * state.

Definition ret {A} (a : A) : M A := fun st => (Ok a, st).

Definition raise {A} (e : exn) : M A := fun st => (Raise e, st).

Definition bindM {A B} (m : M A) (k : A -> M B) : M B :=
  fun st =>
    match m st with
    | (Ok a, st') => k a st'
    | (Raise e, st') => (Raise e, st')
    end.

Definition lift {A} (r : result A) : M A := fun st => (r, st).

Definition print (line : pystr) : M unit :=
  fun st => (Ok tt, {| world := world st; sent := sent st;
                       stdout := stdout st ++ [line] |}).

Declare Scope deploy_scope.
Delimit Scope deploy_scope with deploy.
Notation "x <- m ;; k" := (bindM m (fun x => k))
  (at level 61, m at next level, right associativity) : deploy_scope.
Notation "m ;; k" := (bindM m (fun _ => k))
  (at level 61, right associativity) : deploy_scope.
Local Open Scope deploy_scope.

Definition compile_view (path name return_type description : string) : M pyval :=
  fun st =>
    let (r, w) := views_compile C (lit path) (lit name) (lit return_type)
                    (lit description) (world st) in
    (r, {| world := w; sent := sent st; stdout := stdout st |}).

Definition utils_originate (code : Code C) (storage : Micheline C) : M pystr :=
  fun st =>
    let (r, w) := originate C code storage (world st) in
    (r, {| world := w; sent := sent st ++ [Originated code storage r];
           stdout := stdout st |}).

Definition minter_confirm_admin (minter fa2_contract : pystr) : M unit :=
  fun st =>
    let (r, w) := confirm_admin C minter fa2_contract (world st) in
    (r, {| world := w; sent := sent st ++ [AdminConfirmed minter fa2_contract r];
           stdout := stdout st |}).

(** [_print_contract] *)
Definition _print_contract (addr : pystr) : M unit :=
  print (lit "Successfully originated " ++ addr ++ [10%N]
         ++ lit "Check out the contract at https://you.better-call.dev/delphinet/"
         ++ addr).

Definition homepage : pyval := str_ "https://github.com/bender-labs/wrap-tz-contracts".

(** ** [Deploy.fa2] *)

(** The document of lines 63-80. *)
Definition fa2_metadata (get_balance total_supply is_operator token_metadata : pyval)
  : pyval :=
  PyDict [
    (str_ "interfaces", PyList [str_ "TZIP-12"; str_ "TZIP-16"]);
    (str_ "name", str_ "Wrap protocol FA2 tokens");
    (str_ "homepage", homepage);
    (str_ "license", PyDict [(str_ "name", str_ "MIT")]);
    (str_ "permissions", PyDict [
       (str_ "operator", str_ "owner-or-operator-transfer");
       (str_ "receiver", str_ "owner-no-hook");
       (str_ "sender", str_ "owner-no-hook");
       (str_ "custom", PyDict [(str_ "tag", str_ "PAUSABLE_TOKENS")])]);
    (str_ "views", PyList [get_balance; total_supply; is_operator; token_metadata])
  ].

(** One item of the comprehension of lines 82-90. *)
Definition token_metadata_item (k : Z) (v : TokenType) : result (pyval * pyval) :=
  (d <- encode_hex (int_str (decimals v)) ;;
   c <- encode_hex (eth_contract v) ;;
   e <- encode_hex (eth_symbol v) ;;
   n <- encode_hex (name v) ;;
   s <- encode_hex (symbol v) ;;
   Ok (PyInt k,
       PyDict [(str_ "token_id", PyInt k);
               (str_ "extras", PyDict [(str_ "decimals", d);
                                       (str_ "eth_contract", c);
                                       (str_ "eth_symbol", e);
                                       (str_ "name", n);
                                       (str_ "symbol", s)])]))%py.

(** [token_metadata] of lines 82-90. *)
Definition fa2_token_metadata (tokens : list TokenType) : result pyval :=
  (pairs <- mapM (fun kv => token_metadata_item (fst kv) (snd kv)) (enumerate tokens) ;;
   Ok (PyDict (dict_of_pairs pairs)))%py.

(** [supply] of line 91. *)
Definition fa2_supply (tokens : list TokenType) : pyval :=
  PyDict (dict_of_pairs (map (fun kv => (PyInt (fst kv), PyInt 0)) (enumerate tokens))).

(** The record handed to [self.fa2_contract.storage.encode], lines 92-105. *)
Definition fa2_storage (meta token_metadata supply : pyval) : pyval :=
  PyDict [
    (str_ "admin", PyDict [
       (str_ "admin", PyStr (public_key_hash C));
       (str_ "pending_admin", PyNone);
       (str_ "paused", PyDict [])]);
    (str_ "assets", PyDict [
       (str_ "ledger", PyDict []);
       (str_ "operators", PyDict []);
       (str_ "token_metadata", token_metadata);
       (str_ "token_total_supply", supply)]);
    (str_ "metadata", meta)
  ].

(** Lines 63-105 without the calls to the compiler: the storage record
    built from the compiled views and the token list. *)
Definition fa2_initial_storage
  (get_balance total_supply is_operator token_metadata_view : pyval)
  (tokens : list TokenType) : result pyval :=
  (meta <- _metadata_encode
             (fa2_metadata get_balance total_supply is_operator token_metadata_view) ;;
   token_metadata <- fa2_token_metadata tokens ;;
   let supply := fa2_supply tokens in
   Ok (fa2_storage meta token_metadata supply))%py.

Definition fa2 (tokens : list TokenType) : M pystr :=
  print (lit "Deploying fa2") ;;
  get_balance <- compile_view "./ligo/fa2/views.religo" "get_balance" "nat"
                   "get_balance as defined in tzip-12" ;;
  total_supply <- compile_view "./ligo/fa2/views.religo" "total_supply" "nat"
                    "get_total supply as defined in tzip-12" ;;
  is_operator <- compile_view "./ligo/fa2/views.religo" "is_operator" "bool"
                   "is_operator as defined in tzip-12" ;;
  token_metadata <- compile_view "./ligo/fa2/views.religo" "token_metadata"
                      "(pair nat (map string bytes))"
                      "is_operator as defined in tzip-12" ;;
  record <- lift (fa2_initial_storage get_balance total_supply is_operator
                    token_metadata tokens) ;;
  initial_storage <- lift (storage_encode C FA2 record) ;;
  contract_id <- utils_originate (contract_code C FA2) initial_storage ;;
  _print_contract contract_id ;;
  ret contract_id.

(** ** [Deploy._deploy_minter] *)

(** [token_metadata] of line 112. *)
Definition minter_tokens (tokens : list TokenType) (fa2_contract : pystr) : pyval :=
  PyDict (dict_of_pairs
            (map (fun kv => (PyStr (skipn 2 (eth_contract (snd kv))),
                             PyList [PyStr fa2_contract; PyInt (fst kv)]))
                 (enumerate tokens))).

Definition minter_metadata : pyval :=
  PyDict [
    (str_ "name", str_ "Wrap protocol minter contract");
    (str_ "homepage", homepage);
    (str_ "license", PyDict [(str_ "name", str_ "MIT")])
  ].

(** The record handed to [self.minter_contract.storage.encode],
    lines 118-135. *)
Definition minter_storage (quorum_contract : pystr) (token_metadata metadata : pyval)
  : pyval :=
  PyDict [
    (str_ "admin", PyDict [
       (str_ "administrator", PyStr (public_key_hash C));
       (str_ "signer", PyStr quorum_contract);
       (str_ "paused", PyBool false)]);
    (str_ "assets", PyDict [
       (str_ "tokens", token_metadata);
       (str_ "mints", PyDict [])]);
    (str_ "governance", PyDict [
       (str_ "contract", PyStr (public_key_hash C));
       (str_ "fees_contract", PyStr (public_key_hash C));
       (str_ "wrapping_fees", PyInt 100);
       (str_ "unwrapping_fees", PyInt 100)]);
    (str_ "metadata", metadata)
  ].

(** Lines 112-135: the storage record of the minter. *)
Definition minter_initial_storage
  (quorum_contract : pystr) (tokens : list TokenType) (fa2_contract : pystr)
  : result pyval :=
  (let token_metadata := minter_tokens tokens fa2_contract in
   metadata <- _metadata_encode minter_metadata ;;
   Ok (minter_storage quorum_contract token_metadata metadata))%py.

Definition _deploy_minter
  (quorum_contract : pystr) (tokens : list TokenType) (fa2_contract : pystr)
  : M pystr :=
  print (lit "Deploying minter contract") ;;
  record <- lift (minter_initial_storage quorum_contract tokens fa2_contract) ;;
  initial_storage <- lift (storage_encode C Minter record) ;;
  contract_id <- utils_originate (contract_code C Minter) initial_storage ;;
  _print_contract contract_id ;;
  ret contract_id.

(** ** [Deploy._deploy_quorum] *)

Definition quorum_metadata : pyval :=
  PyDict [
    (str_ "name", str_ "Wrap protocol quorum contract");
    (str_ "homepage", homepage);
    (str_ "license", PyDict [(str_ "name", str_ "MIT")])
  ].

(** The record handed to [self.quorum_contract.storage.encode],
    lines 148-153. *)
Definition quorum_storage (signers : pyval) (threshold : Z) (metadata : pyval) : pyval :=
  PyDict [
    (str_ "admin", PyStr (public_key_hash C));
    (str_ "threshold", PyInt threshold);
    (str_ "signers", signers);
    (str_ "metadata", metadata)
  ].

Definition _deploy_quorum (signers : pyval) (threshold : Z) : M pystr :=
  metadata <- lift (_metadata_encode quorum_metadata) ;;
  print (lit "Deploying quorum contract") ;;
  initial_storage <- lift (storage_encode C Quorum
                             (quorum_storage signers threshold metadata)) ;;
  contract_id <- utils_originate (contract_code C Quorum) initial_storage ;;
  _print_contract contract_id ;;
  ret contract_id.

(** ** The admin hand-off *)

(** [Token(self.utils).set_admin(fa2, minter)].  Class [Token] of
    src/token.py defines [__init__], [originate] and [mint] and nothing
    else, so looking up [set_admin] on its instance raises before anything
    is called. *)
Definition _set_fa2_admin (minter fa2_contract : pystr) : M unit :=
  raise (AttributeError (lit "'Token' object has no attribute 'set_admin'")).

Definition _confirm_admin (minter fa2_contract : pystr) : M unit :=
  minter_confirm_admin minter fa2_contract.

(** ** [Deploy.run] *)

Definition run (signers : pyval) (tokens : list TokenType) (threshold : Z) : M unit :=
  fa2_address <- fa2 tokens ;;
  quorum <- _deploy_quorum signers threshold ;;
  minter <- _deploy_minter quorum tokens fa2_address ;;
  _set_fa2_admin minter fa2_address ;;
  _confirm_admin minter fa2_address ;;
  print (lit "FA2 contract: " ++ fa2_address ++ [10%N]
         ++ lit "Quorum contract: " ++ quorum ++ [10%N]
         ++ lit "Minter contract: " ++ minter).

End Methods.

Arguments world {C} s.
Arguments sent {C} s.
Arguments stdout {C} s.
Arguments Originated {C} code storage outcome.
Arguments AdminConfirmed {C} minter fa2_contract outcome.
Arguments ret {C A} a st.
Arguments raise {C A} e st.
Arguments bindM {C A B} m k st.
Arguments lift {C A} r st.

End Deploy.

(* ===================================================================== *)
(** * src/token.py *)
(* ===================================================================== *)

(** What [Token] reaches through [self.client], a [PyTezosClient], and
    through [Contract.from_file]: the contract file, the node and the
    objects they hand out.  None of them is defined in token.py; each call
    that reads the file or talks to the node transforms the state [Net]
    and may raise. *)
Record PyTezos : Type := {
  Net : Type;
  (** a [Contract] read from a file *)
  App : Type;
  Storage : Type;
  (** a signed [OperationGroup] *)
  Group : Type;
  (** one element of [opg.result()] *)
  Result : Type;
  (** a [ContractInterface], one of its entrypoints, an injected call *)
  Interface : Type;
  Entrypoint : Type;
  Injected : Type;
  (** [self.client.key.public_key_hash()] *)
  key_hash : pystr;
  (** [Contract.from_file(root_dir / "fa2.tz")] *)
  from_file : Net -> result App * Net;
  (** [app.storage.encode(...)] *)
  encode_storage : App -> pyval -> result Storage;
  (** [self.client.origination(script={'code': app.code, 'storage': s})
      .autofill().sign()] *)
  sign_origination : App -> Storage -> Net -> result Group * Net;
  (** [opg.result()] *)
  group_result : Group -> Net -> result (list Result) * Net;
  (** [r.originated_contracts] *)
  originated_contracts : Result -> result (list pystr);
  (** [opg.inject()] *)
  inject : Group -> Net -> result unit * Net;
  (** [self.client.contract(contract_id)] *)
  contract_at : pystr -> Net -> result Interface * Net;
  (** [contract.mint_tokens] *)
  mint_tokens : Interface -> result Entrypoint;
  (** [str(contract.mint_tokens)], as [print] shows it *)
  entrypoint_str : Entrypoint -> pystr;
  (** [contract.mint_tokens(parameter).inject()] *)
  call_inject : Entrypoint -> pyval -> Net -> result Injected * Net;
  (** [str(op)] *)
  injected_str : Injected -> pystr
}.

(** [l[0]] *)
Definition first_item {A} (l : list A) : result A :=
  match l with
  | x :: _ => Ok x
  | [] => Raise (Error (lit "IndexError") (lit "list index out of range"))
  end.

(** [int(o)] for the values whose conversion needs no parsing.  A string
    is parsed by [int]; that parser is not part of the embedding. *)
Definition py_int (o : pyval) : result Z :=
  match o with
  | PyInt z => Ok z
  | PyBool b => Ok (int_of_bool b)
  | PyStr _ => Raise (NotModelled (lit "int(str)"))
  | PyObject _ => Raise (NotModelled (lit "__int__"))
  | _ => Raise (TypeError (lit "int() argument must be a string, a bytes-like object or a real number, not '"
                           ++ class_name o ++ lit "'"))
  end.

Module Token.

Section Methods.

Variable P : PyTezos.

(** Operations handed to the node, in the order they were handed over,
    each with its outcome. *)
Inductive event : Type :=
| Injected_group (group : Group P) (outcome : result unit)
| Called (entrypoint : Entrypoint P) (parameter : pyval) (outcome : result (Injected P)).

Record state : Type := {
  net : Net P;
  sent : list event;
  stdout : list pystr
}.

Definition M (A : Type) : Type := state -> result A * state.

Definition ret {A} (a : A) : M A := fun st => (Ok a, st).

Definition bindM {A B} (m : M A) (k : A -> M B) : M B :=
  fun st =>
    match m st with
    | (Ok a, st') => k a st'
    | (Raise e, st') => (Raise e, st')
    end.

Definition lift {A} (r : result A) : M A := fun st => (r, st).

(** A call that changes the node's state and nothing else. *)
Definition on_net {A} (f : Net P -> result A * Net P) : M A :=
  fun st =>
    let (r, n) := f (net st) in
    (r, {| net := n; sent := sent st; stdout := stdout st |}).

Definition print (line : pystr) : M unit :=
  fun st => (Ok tt, {| net := net st; sent := sent st;
                       stdout := stdout st ++ [line] |}).

Definition opg_inject (group : Group P) : M unit :=
  fun st =>
    let (r, n) := inject P group (net st) in
    (r, {| net := n; sent := sent st ++ [Injected_group group r];
           stdout := stdout st |}).

Definition entrypoint_call_inject (entrypoint : Entrypoint P) (parameter : pyval)
  : M (Injected P) :=
  fun st =>
    let (r, n) := call_inject P entrypoint parameter (net st) in
    (r, {| net := n; sent := sent st ++ [Called entrypoint parameter r];
           stdout := stdout st |}).

Declare Scope token_scope.
Delimit Scope token_scope with token.
Notation "x <- m ;; k" := (bindM m (fun x => k))
  (at level 61, m at next level, right associativity) : token_scope.
Notation "m ;; k" := (bindM m (fun _ => k))
  (at level 61, right associativity) : token_scope.
Local Open Scope token_scope.

(** The record of lines 14-34. *)
Definition initial_storage : pyval :=
  PyDict [
    (str_ "admin", PyDict [
       (str_ "admin", PyStr (key_hash P));
       (str_ "pending_admin", PyNone);
       (str_ "paused", PyBool false)]);
    (str_ "assets", PyDict [
       (str_ "ledger", PyDict []);
       (str_ "operators", PyDict []);
       (str_ "token_metadata", PyDict [
          (PyInt 0, PyDict [
             (str_ "token_id", PyInt 0);
             (str_ "symbol", str_ "BOD");
             (str_ "name", str_ "Body Token");
             (str_ "decimals", PyInt 16);
             (str_ "extras", PyDict [])])]);
       (str_ "total_supply", PyInt 0)])
  ].

(** [Token.originate] *)
Definition originate : M unit :=
  app <- on_net (from_file P) ;;
  storage <- lift (encode_storage P app initial_storage) ;;
  opg <- on_net (sign_origination P app storage) ;;
  results <- on_net (group_result P opg) ;;
  first <- lift (first_item results) ;;
  contracts <- lift (originated_contracts P first) ;;
  contract_id <- lift (first_item contracts) ;;
  opg_inject opg ;;
  print (lit "Successfully originated " ++ contract_id ++ [10%N]
         ++ lit "Check out the contract at https://you.better-call.dev/delphinet/"
         ++ contract_id).

(** The parameter of line 47. *)
Definition mint_parameter (amount : Z) : pyval :=
  PyList [PyDict [(str_ "owner", PyStr (key_hash P));
                  (str_ "amount", PyInt (amount * 10 ^ 1016))]].

(** [Token.mint] *)
Definition mint (contract_id : pystr) (amount : pyval) : M unit :=
  contract <- on_net (contract_at P contract_id) ;;
  shown <- lift (mint_tokens P contract) ;;
  print (entrypoint_str P shown) ;;
  entrypoint <- lift (mint_tokens P contract) ;;
  n <- lift (py_int amount) ;;
  op <- entrypoint_call_inject entrypoint (mint_parameter n) ;;
  print (injected_str P op).

End Methods.

Arguments net {P} s.
Arguments sent {P} s.
Arguments stdout {P} s.
Arguments Injected_group {P} group outcome.
Arguments Called {P} entrypoint parameter outcome.

End Token.

(* ===================================================================== *)
(** * Vocabulary of the statements *)
(* ===================================================================== *)

(** ** Outcomes and ASCII text *)

Definition is_ascii (s : pystr) : Prop := Forall (fun c => (c < 128)%N) s.



(** ** Which documents the encoder accepts *)




(** ** The missing method *)

(** What Python raises at [Token(self.utils).set_admin]: class [Token]
    (src/token.py) defines [__init__], [originate] and [mint] only. *)
Definition no_set_admin : exn :=
  AttributeError (lit "'Token' object has no attribute 'set_admin'").

(** ** A concrete client for the examples *)

(** Originations are numbered from the state [World := nat]; the ones
    that [failing] selects raise, the others return the address
    [KT1] followed by their number.  Storage is encoded by the identity. *)
Definition demo_client (failing : nat -> bool) : Collaborators :=
  {| World := nat;
     Code := contract;
     Micheline := pyval;
     public_key_hash := lit "tz1caller";
     contract_code := fun c => c;
     storage_encode := fun _ record => Ok record;
     views_compile := fun _ name _ _ w => (Ok (PyDict [(str_ "name", PyStr name)]), w);
     originate := fun _ _ w =>
       (if failing w then Raise (Error (lit "OriginationError") (lit "node unreachable"))
        else Ok (lit "KT1" ++ int_str (Z.of_nat w)), S w);
     confirm_admin := fun _ _ w => (Ok tt, w) |}.

Definition weth : TokenType :=
  {| eth_contract := lit "0x01";
     eth_symbol := lit "ETH";
     symbol := lit "WETH";
     name := lit "Wrapped Ether";
     decimals := 18 |}.

Definition signers_a : pyval := PyDict [(str_ "a", str_ "pkhA")].

Definition fresh (C : Collaborators) (w : World C) : Deploy.state C :=
  Deploy.Build_state C w [] [].

Definition outcomes {C : Collaborators} (st : Deploy.state C) : list (result pystr) :=
  flat_map (fun ev => match ev with
                      | Deploy.Originated _ _ r => [r]
                      | Deploy.AdminConfirmed _ _ _ => []
                      end) (Deploy.sent st).

Definition third_fails (w : nat) : bool := Nat.eqb w 2.

Definition reliable : Collaborators := demo_client (fun _ => false).

Definition flaky : Collaborators := demo_client third_fails.


Definition lone_surrogate : TokenType :=
  {| eth_contract := lit "0x01";
     eth_symbol := lit "ETH";
     symbol := lit "WETH";
     name := [0xD800%N];
     decimals := 18 |}.

(** ** Dictionaries whose keys all come from one key type *)

(** [mk] injects a key type ([str] through [PyStr], [int] through
    [PyInt]) into the keys of a dictionary. *)
Definition keyed {K} (mk : K -> pyval) (p : K * pyval) : pyval * pyval :=
  (mk (fst p), snd p).

Definition keys {K} (d : list (K * pyval)) : list K := map fst d.

(** ** Positions and token entries *)

Definition enumerate_from {A} (a : nat) (l : list A) : list (Z * A) :=
  combine (map Z.of_nat (seq a (List.length l))) l.

(** [v["eth_contract"][2:]] *)
Definition token_key (v : TokenType) : pystr := skipn 2 (eth_contract v).

Definition token_pair (fa2_contract : pystr) (kv : Z * TokenType) : pystr * pyval :=
  (token_key (snd kv), PyList [PyStr fa2_contract; PyInt (fst kv)]).

(** No surrogate code point: what the strict UTF-8 codec accepts. *)
Definition encodable (s : pystr) : bool := negb (existsb is_surrogate s).

Definition token_encodable (v : TokenType) : bool :=
  encodable (eth_contract v) && encodable (eth_symbol v)
  && encodable (name v) && encodable (symbol v).

Definition utf8_bytes (s : pystr) : bytes := flat_map utf8_cp s.

(** The hexadecimal text of the UTF-8 bytes of [s]. *)
Definition hex_text (s : pystr) : pyval := PyStr (bytes_hex (utf8_bytes s)).

(** The [token_metadata] value of the token at position [k]. *)
Definition fa2_entry (k : Z) (v : TokenType) : pyval :=
  PyDict [(str_ "token_id", PyInt k);
          (str_ "extras", PyDict [(str_ "decimals", hex_text (int_str (decimals v)));
                                  (str_ "eth_contract", hex_text (eth_contract v));
                                  (str_ "eth_symbol", hex_text (eth_symbol v));
                                  (str_ "name", hex_text (name v));
                                  (str_ "symbol", hex_text (symbol v))])].

(** ** Documents that survive the round trip *)








(** ** What the encoder writes *)











(** ** Further vocabulary: reading back, outcomes of the deployment *)

(** [bytes.fromhex(h).decode()] *)
Definition hex_decode (h : pystr) : result pystr :=
  b <- bytes_fromhex h ;; bytes_decode b.

(** The code points of a Python string end at U+10FFFF. *)
Definition is_text (s : pystr) : bool := forallb (fun c => c <? 0x110000)%N s.

Definition token_text (v : TokenType) : bool :=
  is_text (eth_contract v) && is_text (eth_symbol v)
  && is_text (name v) && is_text (symbol v).

(** [bytes.fromhex(entry["extras"][field]).decode()] *)
Definition decoded_field (entry : pyval) (field : string) : option pystr :=
  match getitem entry (str_ "extras") with
  | Some extras =>
      match getitem extras (str_ field) with
      | Some (PyStr h) =>
          match hex_decode h with
          | Ok s => Some s
          | Raise _ => None
          end
      | _ => None
      end
  | None => None
  end.

(** What [_print_contract] prints for [addr]. *)
Definition success_message (addr : pystr) : pystr :=
  lit "Successfully originated " ++ addr ++ [10%N]
  ++ lit "Check out the contract at https://you.better-call.dev/delphinet/" ++ addr.

(** The three ways a deployment method ends: it raised before the
    origination was sent, the origination was sent and failed, or it was
    sent and gave an address.  In each case the line [banner] was printed,
    and the success message only in the last. *)
Inductive deployment (C : Collaborators) (code : Code C) (banner : pystr)
  (st : Deploy.state C) : result pystr * Deploy.state C -> Prop :=
| not_sent (e : exn) (st' : Deploy.state C) :
    Deploy.sent st' = Deploy.sent st ->
    Deploy.stdout st' = Deploy.stdout st ++ [banner] ->
    deployment C code banner st (Raise e, st')
| sent_and_failed (storage : Micheline C) (e : exn) (st' : Deploy.state C) :
    Deploy.sent st' = Deploy.sent st ++ [Deploy.Originated code storage (Raise e)] ->
    Deploy.stdout st' = Deploy.stdout st ++ [banner] ->
    deployment C code banner st (Raise e, st')
| sent_and_originated (storage : Micheline C) (addr : pystr) (st' : Deploy.state C) :
    Deploy.sent st' = Deploy.sent st ++ [Deploy.Originated code storage (Ok addr)] ->
    Deploy.stdout st' = Deploy.stdout st ++ [banner; success_message addr] ->
    deployment C code banner st (Ok addr, st').

(** The code that an event originated, if it is an origination. *)
Definition originated_code {C : Collaborators} (ev : Deploy.event C) : option (Code C) :=
  match ev with
  | Deploy.Originated code _ _ => Some code
  | Deploy.AdminConfirmed _ _ _ => None
  end.

Definition succeeded {C : Collaborators} (ev : Deploy.event C) : bool :=
  match ev with
  | Deploy.Originated _ _ (Ok _) => true
  | Deploy.AdminConfirmed _ _ (Ok _) => true
  | _ => false
  end.

(** The addresses of the originations that succeeded. *)
Definition addresses {C : Collaborators} (evs : list (Deploy.event C)) : list pystr :=
  flat_map (fun ev => match ev with
                      | Deploy.Originated _ _ (Ok addr) => [addr]
                      | _ => []
                      end) evs.

(** The exception of the operation that failed. *)
Definition failure {C : Collaborators} (ev : Deploy.event C) : option exn :=
  match ev with
  | Deploy.Originated _ _ (Raise e) => Some e
  | Deploy.AdminConfirmed _ _ (Raise e) => Some e
  | _ => None
  end.

Definition is_success_message (line : pystr) : bool :=
  Json.starts_with (lit "Successfully originated ") line.

Definition is_summary (line : pystr) : bool :=
  Json.starts_with (lit "FA2 contract: ") line.

Definition deployment_order (C : Collaborators) : list (option (Code C)) :=
  [Some (contract_code C FA2); Some (contract_code C Quorum);
   Some (contract_code C Minter)].

(** How [run] ends: the three deployments one after the other, up to the
    first that fails, and the missing [set_admin] after the third. *)
Inductive run_outcome (C : Collaborators) (st : Deploy.state C) : result unit * Deploy.state C -> Prop :=
| fa2_failed (e : exn) (st1 : Deploy.state C) :
    deployment C (contract_code C FA2) (lit "Deploying fa2") st (Raise e, st1) ->
    run_outcome C st (Raise e, st1)
| quorum_failed (fa2_address : pystr) (e : exn) (st1 st2 : Deploy.state C) :
    deployment C (contract_code C FA2) (lit "Deploying fa2") st (Ok fa2_address, st1) ->
    deployment C (contract_code C Quorum) (lit "Deploying quorum contract") st1
      (Raise e, st2) ->
    run_outcome C st (Raise e, st2)
| minter_failed (fa2_address quorum : pystr) (e : exn) (st1 st2 st3 : Deploy.state C) :
    deployment C (contract_code C FA2) (lit "Deploying fa2") st (Ok fa2_address, st1) ->
    deployment C (contract_code C Quorum) (lit "Deploying quorum contract") st1
      (Ok quorum, st2) ->
    deployment C (contract_code C Minter) (lit "Deploying minter contract") st2
      (Raise e, st3) ->
    run_outcome C st (Raise e, st3)
| set_admin_missing (fa2_address quorum minter : pystr) (st1 st2 st3 : Deploy.state C) :
    deployment C (contract_code C FA2) (lit "Deploying fa2") st (Ok fa2_address, st1) ->
    deployment C (contract_code C Quorum) (lit "Deploying quorum contract") st1
      (Ok quorum, st2) ->
    deployment C (contract_code C Minter) (lit "Deploying minter contract") st2
      (Ok minter, st3) ->
    run_outcome C st (Raise no_set_admin, st3).

Definition is_lower_hex (c : N) : bool :=
  ((48 <=? c) && (c <=? 57) || (97 <=? c) && (c <=? 102))%N.




Definition index_error : exn :=
  Error (lit "IndexError") (lit "list index out of range").


(** A node for the examples: whatever is signed lists the contracts
    [listed]; nothing fails. *)
Definition demo_node (listed : list (list pystr)) : PyTezos :=
  {| Net := nat;
     App := unit;
     Storage := pyval;
     Group := pyval;
     Result := list pystr;
     Interface := pystr;
     Entrypoint := pystr;
     Injected := pyval;
     key_hash := lit "tz1caller";
     from_file := fun n => (Ok tt, n);
     encode_storage := fun _ record => Ok record;
     sign_origination := fun _ storage n => (Ok storage, S n);
     group_result := fun _ n => (Ok listed, n);
     originated_contracts := fun r => Ok r;
     inject := fun _ n => (Ok tt, S n);
     contract_at := fun id n => (Ok id, n);
     mint_tokens := fun c => Ok (c ++ lit "%mint_tokens");
     entrypoint_str := fun e => e;
     call_inject := fun _ parameter n => (Ok parameter, S n);
     injected_str := fun _ => lit "injected" |}.

Definition idle (P : PyTezos) (n : Net P) : Token.state P :=
  Token.Build_state P n [] [].

(** A token whose name needs two, three and four bytes per character. *)
Definition xi_token : TokenType :=
  {| eth_contract := lit "0x02";
     eth_symbol := lit "XI";
     symbol := lit "WXI";
     name := [0x39E; 0x20AC; 0x1F600]%N;
     decimals := 6 |}.

Definition in_range (k : Z) (n : nat) : bool := ((0 <=? k) && (k <? Z.of_nat n))%Z.

(* ===================================================================== *)
(** * Properties *)
(* ===================================================================== *)

(** ** Generic facts *)

(** Induction over Python values that reaches inside lists and
    dictionaries. *)
Section PyvalInduction.

Variable P : pyval -> Prop.
Hypothesis HNone : P PyNone.
Hypothesis HBool : forall b, P (PyBool b).
Hypothesis HInt : forall z, P (PyInt z).
Hypothesis HStr : forall s, P (PyStr s).
Hypothesis HList : forall l, Forall P l -> P (PyList l).
Hypothesis HTuple : forall l, Forall P l -> P (PyTuple l).
Hypothesis HDict : forall d, Forall (fun kv => P (snd kv)) d -> P (PyDict d).
Hypothesis HObject : forall cls, P (PyObject cls).

Fixpoint pyval_nested_ind (o : pyval) : P o :=
  match o with
  | PyNone => HNone
  | PyBool b => HBool b
  | PyInt z => HInt z
  | PyStr s => HStr s
  | PyList l =>
      HList l ((fix go (l : list pyval) : Forall P l :=
                match l with
                | [] => Forall_nil P
                | x :: l' => Forall_cons (P := P) x (pyval_nested_ind x) (go l')
                end) l)
  | PyTuple l =>
      HTuple l ((fix go (l : list pyval) : Forall P l :=
                 match l with
                 | [] => Forall_nil P
                 | x :: l' => Forall_cons (P := P) x (pyval_nested_ind x) (go l')
                 end) l)
  | PyDict d =>
      HDict d ((fix go (d : list (pyval * pyval))
                : Forall (fun kv => P (snd kv)) d :=
                match d with
                | [] => Forall_nil _
                | (k, v) :: d' =>
                    Forall_cons (P := fun kv => P (snd kv)) (k, v)
                      (pyval_nested_ind v) (go d')
                end) d)
  | PyObject cls => HObject cls
  end.

End PyvalInduction.

Lemma bind_Ok {A B} (m : result A) (k : A -> result B) (b : B) :
  Py.bind m k = Ok b -> exists a, m = Ok a /\ k a = Ok b.
Proof. destruct m as [a|e]; simpl; [eauto | discriminate]. Qed.

Lemma Ok_inj {A} (a b : A) : Ok a = Ok b -> a = b.
Proof. now intros [= ->]. Qed.

Lemma mapM_Ok {A B} (f : A -> result B) (l : list A) (ys : list B) :
  mapM f l = Ok ys -> Forall2 (fun x y => f x = Ok y) l ys.
Proof.
  revert ys. induction l as [|x l IH]; simpl; intros ys H.
  - injection H as <-. constructor.
  - apply bind_Ok in H as (y & Hy & H).
    apply bind_Ok in H as (ys' & Hys & H).
    injection H as <-. constructor; auto.
Qed.

Lemma mapM_Forall2 {A B} (f : A -> result B) (l : list A) (ys : list B) :
  Forall2 (fun x y => f x = Ok y) l ys -> mapM f l = Ok ys.
Proof.
  induction 1 as [|x y l ys Hxy _ IH]; simpl; [reflexivity|].
  now rewrite Hxy, IH.
Qed.

Lemma mapM_map {A B} (f : A -> B) (l : list A) :
  mapM (fun x => Ok (f x)) l = Ok (map f l).
Proof. induction l as [|x l IH]; simpl; [reflexivity | now rewrite IH]. Qed.

(** ** ASCII text *)

Lemma is_ascii_app (a b : pystr) : is_ascii a -> is_ascii b -> is_ascii (a ++ b).
Proof. intros; apply Forall_app; auto. Qed.

Lemma is_ascii_repeat (n : nat) : is_ascii (repeat 32%N n).
Proof. induction n; simpl; constructor; auto; reflexivity. Qed.

Lemma hexdigit_ascii (n : N) : (n < 16)%N -> (hexdigit n < 128)%N.
Proof. intros H; unfold hexdigit; destruct (n <? 10)%N; lia. Qed.

Lemma mod16_lt (n : N) : (n mod 16 < 16)%N.
Proof. apply N.mod_lt; discriminate. Qed.

Lemma hex4_ascii (n : N) : is_ascii (Json.hex4 n).
Proof. repeat constructor; apply hexdigit_ascii, mod16_lt. Qed.

Lemma u_escape_ascii (n : N) : is_ascii (Json.u_escape n).
Proof. repeat constructor; apply hexdigit_ascii, mod16_lt. Qed.

Lemma escape_char_ascii (c : N) : is_ascii (Json.escape_char c).
Proof.
  unfold Json.escape_char.
  repeat match goal with
         | |- is_ascii (if ?b then _ else _) => destruct b eqn:?
         end;
    try (repeat constructor; fail).
  - constructor; [|constructor].
    apply andb_prop in Heqb6 as [_ H]. apply N.leb_le in H. lia.
  - apply u_escape_ascii.
  - apply is_ascii_app; apply u_escape_ascii.
Qed.

Lemma encode_basestring_ascii_ascii (s : pystr) :
  is_ascii (Json.encode_basestring_ascii s).
Proof.
  unfold Json.encode_basestring_ascii. constructor; [reflexivity|].
  apply is_ascii_app; [|repeat constructor].
  induction s as [|c s IH]; simpl; [constructor|].
  apply is_ascii_app; [apply escape_char_ascii | exact IH].
Qed.

Lemma uint_chars_ascii (u : Decimal.uint) : is_ascii (uint_chars u).
Proof. induction u; simpl; constructor; auto; reflexivity. Qed.

Lemma int_str_ascii (z : Z) : is_ascii (int_str z).
Proof.
  unfold int_str. destruct (Z.to_int z).
  - apply uint_chars_ascii.
  - constructor; [reflexivity | apply uint_chars_ascii].
Qed.

Lemma join_ascii (sep : pystr) (chunks : list pystr) :
  is_ascii sep -> Forall is_ascii chunks -> is_ascii (Json.join sep chunks).
Proof.
  intros Hsep H. induction H as [|c cs Hc Hcs IH]; simpl; [constructor|].
  destruct cs; [exact Hc|].
  apply is_ascii_app; [exact Hc|]. apply is_ascii_app; [exact Hsep | exact IH].
Qed.

Lemma newline_indent_ascii (indent level : nat) :
  is_ascii (Json.newline_indent indent level).
Proof. constructor; [reflexivity | apply is_ascii_repeat]. Qed.

Lemma container_ascii (indent level : nat) (o c : N) (chunks : list pystr) :
  (o < 128)%N -> (c < 128)%N -> Forall is_ascii chunks ->
  is_ascii ([o] ++ Json.newline_indent indent (S level)
            ++ Json.join (Json.item_separator ++ Json.newline_indent indent (S level))
                 chunks
            ++ Json.newline_indent indent level ++ [c]).
Proof.
  intros Ho Hc H.
  repeat apply is_ascii_app; try apply newline_indent_ascii;
    try (repeat constructor; assumption).
  apply join_ascii; [|exact H].
  apply is_ascii_app; [repeat constructor | apply newline_indent_ascii].
Qed.

(** The encoder only ever emits ASCII ([ensure_ascii=True]). *)
Lemma iterencode_ascii (indent : nat) (o : pyval) :
  forall level t, Json._iterencode indent o level = Ok t -> is_ascii t.
Proof.
  induction o as [|b|z|s|l IH|l IH|d IH|cls] using pyval_nested_ind;
    intros level t H; simpl in H.
  - injection H as <-. repeat constructor.
  - destruct b; injection H as <-; repeat constructor.
  - injection H as <-. apply int_str_ascii.
  - injection H as <-. apply encode_basestring_ascii_ascii.
  - destruct l as [|x l]; [injection H as <-; repeat constructor|].
    apply bind_Ok in H as (chunks & Hc & H). injection H as <-.
    apply container_ascii; try reflexivity.
    apply mapM_Ok in Hc. revert IH. clear -Hc.
    induction Hc as [|a y l' ys Hay _ IHc]; intros IH; constructor.
    + inversion IH; subst; eauto.
    + apply IHc. inversion IH; assumption.
  - destruct l as [|x l]; [injection H as <-; repeat constructor|].
    apply bind_Ok in H as (chunks & Hc & H). injection H as <-.
    apply container_ascii; try reflexivity.
    apply mapM_Ok in Hc. revert IH. clear -Hc.
    induction Hc as [|a y l' ys Hay _ IHc]; intros IH; constructor.
    + inversion IH; subst; eauto.
    + apply IHc. inversion IH; assumption.
  - destruct d as [|x d]; [injection H as <-; repeat constructor|].
    apply bind_Ok in H as (chunks & Hc & H). injection H as <-.
    apply container_ascii; try reflexivity.
    apply mapM_Ok in Hc. revert IH. clear -Hc.
    induction Hc as [|[k v] y l' ys Hay _ IHc]; intros IH; constructor.
    + apply bind_Ok in Hay as (key & _ & Hay).
      apply bind_Ok in Hay as (c & Hv & Hay). injection Hay as <-.
      change (is_ascii (Json.encode_basestring_ascii key ++ Json.key_separator ++ c)).
      apply is_ascii_app; [apply encode_basestring_ascii_ascii|].
      apply is_ascii_app; [repeat constructor|].
      inversion IH; subst; simpl in *; eauto.
    + apply IHc. inversion IH; assumption.
  - discriminate.
Qed.

(** On ASCII text [str.encode()] cannot fail: one byte per character. *)
Lemma str_encode_ascii (s : pystr) :
  is_ascii s -> str_encode s = Ok (map byte_of_N s).
Proof.
  unfold str_encode. intros H.
  assert (E : mapM utf8_encode_cp s = Ok (map (fun c => [byte_of_N c]) s)).
  { apply mapM_Forall2. induction H as [|c s Hc _ IH]; simpl; constructor; auto.
    unfold utf8_encode_cp, utf8_cp, is_surrogate.
    replace (0xD800 <=? c)%N with false by (symmetry; apply N.leb_gt; lia).
    apply N.ltb_lt in Hc. now rewrite Hc. }
  rewrite E. simpl. f_equal.
  clear. induction s as [|c s IH]; simpl; [reflexivity | now rewrite IH].
Qed.

(** ** Which documents the encoder accepts *)











(** [_metadata_encode] succeeds exactly when [json.dumps] does, and fails
    with the same exception. *)
Lemma metadata_encode_dumps (D : pyval) :
  match Json.dumps 2 D with
  | Ok text =>
      _metadata_encode D =
        Ok (PyDict [(str_ "", str_ "74657a6f732d73746f726167653a636f6e74656e74");
                    (str_ "content", PyStr (bytes_hex (map byte_of_N text)))])
  | Raise e => _metadata_encode D = Raise e
  end.
Proof.
  unfold _metadata_encode. destruct (Json.dumps 2 D) as [text|e] eqn:E; simpl;
    [|reflexivity].
  rewrite (str_encode_ascii _ (iterencode_ascii 2 D 0 _ E)). reflexivity.
Qed.

(** C2.  For every document [D] that [json.dumps] can serialize, the
    metadata encoder returns a mapping with exactly the two keys [""] and
    ["content"], in that order.  The [""] entry is the hexadecimal text of
    the UTF-8 bytes of ["tezos-storage:content"], the same constant
    [74657a6f732d73746f726167653a636f6e74656e74] for every [D]; the
    ["content"] entry is the hexadecimal text of the UTF-8 bytes of
    [json.dumps(D, indent=2)]. *)
Theorem metadata_encode_two_keys (D : pyval) (text : pystr) :
  Json.dumps 2 D = Ok text ->
  exists content_bytes uri_bytes,
    str_encode text = Ok content_bytes /\
    str_encode (lit "tezos-storage:content") = Ok uri_bytes /\
    bytes_hex uri_bytes = lit "74657a6f732d73746f726167653a636f6e74656e74" /\
    _metadata_encode D =
      Ok (PyDict [(PyStr [], PyStr (bytes_hex uri_bytes));
                  (PyStr (lit "content"), PyStr (bytes_hex content_bytes))]).
Proof.
  intros H. exists (map byte_of_N text), (map byte_of_N (lit "tezos-storage:content")).
  split; [apply str_encode_ascii; exact (iterencode_ascii 2 D 0 _ H)|].
  split; [reflexivity|]. split; [reflexivity|].
  pose proof (metadata_encode_dumps D) as E. rewrite H in E. exact E.
Qed.

Lemma metadata_encode_two_keys_witness :
  Json.dumps 2 Deploy.quorum_metadata
  = Ok (lit "{" ++ [10%N] ++ lit "  " ++ [34%N] ++ lit "name" ++ [34%N]
        ++ lit ": " ++ [34%N] ++ lit "Wrap protocol quorum contract" ++ [34%N]
        ++ lit "," ++ [10%N] ++ lit "  " ++ [34%N] ++ lit "homepage" ++ [34%N]
        ++ lit ": " ++ [34%N]
        ++ lit "https://github.com/bender-labs/wrap-tz-contracts" ++ [34%N]
        ++ lit "," ++ [10%N] ++ lit "  " ++ [34%N] ++ lit "license" ++ [34%N]
        ++ lit ": {" ++ [10%N] ++ lit "    " ++ [34%N] ++ lit "name" ++ [34%N]
        ++ lit ": " ++ [34%N] ++ lit "MIT" ++ [34%N] ++ [10%N] ++ lit "  }"
        ++ [10%N] ++ lit "}")
  /\ exists content_bytes uri_bytes,
    str_encode (lit "tezos-storage:content") = Ok uri_bytes /\
    _metadata_encode Deploy.quorum_metadata =
      Ok (PyDict [(PyStr [], PyStr (bytes_hex uri_bytes));
                  (PyStr (lit "content"), PyStr (bytes_hex content_bytes))]).
Proof.
  split; [reflexivity|].
  destruct (metadata_encode_two_keys Deploy.quorum_metadata _ eq_refl)
    as (cb & ub & _ & Hu & _ & H).
  exists cb, ub. split; assumption.
Defined.



(** ** The deployment sequence *)

Section Sequencer.

Variable C : Collaborators.

Local Arguments _metadata_encode : simpl never.
Local Arguments Deploy.quorum_storage : simpl never.
Local Arguments Deploy.minter_initial_storage : simpl never.
Local Arguments Deploy.fa2_initial_storage : simpl never.
Local Arguments lit : simpl never.
Local Arguments app : simpl never.

Ltac method_step :=
  match goal with
  | |- context [views_compile C ?a ?b ?c ?d ?w] =>
      destruct (views_compile C a b c d w) as [[?|?] ?] eqn:?; cbn [Deploy.world Deploy.sent Deploy.stdout]
  | |- context [originate C ?a ?b ?w] =>
      destruct (originate C a b w) as [[?|?] ?] eqn:?; cbn [Deploy.world Deploy.sent Deploy.stdout]
  | |- context [confirm_admin C ?a ?b ?w] =>
      destruct (confirm_admin C a b w) as [[?|?] ?] eqn:?; cbn [Deploy.world Deploy.sent Deploy.stdout]
  | |- context [storage_encode C ?a ?b] =>
      destruct (storage_encode C a b) eqn:?; cbv beta iota
  | |- context [Deploy.fa2_initial_storage C ?a ?b ?c ?d ?e] =>
      destruct (Deploy.fa2_initial_storage C a b c d e) eqn:?; cbv beta iota
  end.

Ltac unfold_methods :=
  unfold Deploy.fa2, Deploy._deploy_minter, Deploy._deploy_quorum,
    Deploy.bindM, Deploy.compile_view, Deploy.print, Deploy.lift,
    Deploy.utils_originate, Deploy._print_contract, Deploy.ret.

(** What a successful [fa2] has done on the network: one origination, of
    the FA2 code, with the encoded storage record built from the token
    list. *)
Lemma fa2_Ok (tokens : list TokenType) (st st1 : Deploy.state C) (address : pystr) :
  Deploy.fa2 C tokens st = (Ok address, st1) ->
  exists get_balance total_supply is_operator token_metadata record storage,
    Deploy.fa2_initial_storage C get_balance total_supply is_operator
      token_metadata tokens = Ok record
    /\ storage_encode C FA2 record = Ok storage
    /\ Deploy.sent st1
       = Deploy.sent st ++ [Deploy.Originated (contract_code C FA2) storage (Ok address)].
Proof.
  unfold_methods. cbv beta iota. repeat (method_step; try discriminate).
  intros H. injection H as <- <-. simpl. eauto 10.
Qed.

(** A failed [fa2] has sent nothing, or the one origination that failed. *)
Lemma fa2_Raise (tokens : list TokenType) (st st1 : Deploy.state C) (e : exn) :
  Deploy.fa2 C tokens st = (Raise e, st1) ->
  Deploy.sent st1 = Deploy.sent st
  \/ exists storage,
      Deploy.sent st1
      = Deploy.sent st ++ [Deploy.Originated (contract_code C FA2) storage (Raise e)].
Proof.
  unfold_methods. cbv beta iota. repeat (method_step; try discriminate);
    intros H; injection H as <- <-; simpl; eauto.
Qed.

Lemma quorum_metadata_encoded :
  exists metadata, _metadata_encode Deploy.quorum_metadata = Ok metadata.
Proof. eexists. vm_compute. reflexivity. Qed.

Lemma minter_metadata_encoded :
  exists metadata, _metadata_encode Deploy.minter_metadata = Ok metadata.
Proof. eexists. vm_compute. reflexivity. Qed.

Lemma deploy_quorum_Ok (signers : pyval) (threshold : Z) (st st1 : Deploy.state C)
  (address : pystr) :
  Deploy._deploy_quorum C signers threshold st = (Ok address, st1) ->
  exists metadata storage,
    _metadata_encode Deploy.quorum_metadata = Ok metadata
    /\ storage_encode C Quorum (Deploy.quorum_storage C signers threshold metadata)
       = Ok storage
    /\ Deploy.sent st1
       = Deploy.sent st
         ++ [Deploy.Originated (contract_code C Quorum) storage (Ok address)].
Proof.
  destruct quorum_metadata_encoded as [metadata E].
  unfold_methods. rewrite E. cbv beta iota. repeat (method_step; try discriminate).
  intros H. injection H as <- <-. simpl. eauto 10.
Qed.

Lemma deploy_quorum_Raise (signers : pyval) (threshold : Z) (st st1 : Deploy.state C)
  (e : exn) :
  Deploy._deploy_quorum C signers threshold st = (Raise e, st1) ->
  Deploy.sent st1 = Deploy.sent st
  \/ exists storage,
      Deploy.sent st1
      = Deploy.sent st
        ++ [Deploy.Originated (contract_code C Quorum) storage (Raise e)].
Proof.
  destruct quorum_metadata_encoded as [metadata E].
  unfold_methods. rewrite E. cbv beta iota. repeat (method_step; try discriminate);
    intros H; injection H as <- <-; simpl; eauto.
Qed.

Lemma deploy_minter_Ok (quorum : pystr) (tokens : list TokenType) (fa2_address : pystr)
  (st st1 : Deploy.state C) (address : pystr) :
  Deploy._deploy_minter C quorum tokens fa2_address st = (Ok address, st1) ->
  exists record storage,
    Deploy.minter_initial_storage C quorum tokens fa2_address = Ok record
    /\ storage_encode C Minter record = Ok storage
    /\ Deploy.sent st1
       = Deploy.sent st
         ++ [Deploy.Originated (contract_code C Minter) storage (Ok address)].
Proof.
  unfold_methods.
  destruct (Deploy.minter_initial_storage C quorum tokens fa2_address);
    cbv beta iota; [|discriminate].
  repeat (method_step; try discriminate).
  intros H. injection H as <- <-. simpl. eauto 10.
Qed.

Lemma deploy_minter_Raise (quorum : pystr) (tokens : list TokenType)
  (fa2_address : pystr) (st st1 : Deploy.state C) (e : exn) :
  Deploy._deploy_minter C quorum tokens fa2_address st = (Raise e, st1) ->
  Deploy.sent st1 = Deploy.sent st
  \/ exists storage,
      Deploy.sent st1
      = Deploy.sent st
        ++ [Deploy.Originated (contract_code C Minter) storage (Raise e)].
Proof.
  unfold_methods.
  destruct (Deploy.minter_initial_storage C quorum tokens fa2_address);
    cbv beta iota.
  - repeat (method_step; try discriminate);
      intros H; injection H as <- <-; simpl; eauto.
  - intros H; injection H as <- <-; simpl; eauto.
Qed.

(** C1.  Whenever the three originations succeed, [run] has sent exactly
    three operations, in this order: the origination of the FA2 contract
    with the storage built from the token list, the origination of the
    quorum contract with the storage built from the signers and the
    threshold, and the origination of the minter contract with the storage
    built from the quorum address, the token list and the FA2 address.
    It then raises [AttributeError] at [Token(self.utils).set_admin], so
    the admin hand-off and the admin confirmation are never sent. *)
Theorem run_stops_at_admin_handoff
  (signers : pyval) (tokens : list TokenType) (threshold : Z)
  (st st1 st2 st3 : Deploy.state C) (fa2_address quorum minter : pystr) :
  Deploy.fa2 C tokens st = (Ok fa2_address, st1) ->
  Deploy._deploy_quorum C signers threshold st1 = (Ok quorum, st2) ->
  Deploy._deploy_minter C quorum tokens fa2_address st2 = (Ok minter, st3) ->
  Deploy.run C signers tokens threshold st = (Raise no_set_admin, st3)
  /\ exists get_balance total_supply is_operator token_metadata
       fa2_record fa2_storage quorum_metadata quorum_storage
       minter_record minter_storage,
      Deploy.fa2_initial_storage C get_balance total_supply is_operator
        token_metadata tokens = Ok fa2_record
      /\ storage_encode C FA2 fa2_record = Ok fa2_storage
      /\ _metadata_encode Deploy.quorum_metadata = Ok quorum_metadata
      /\ storage_encode C Quorum
           (Deploy.quorum_storage C signers threshold quorum_metadata)
         = Ok quorum_storage
      /\ Deploy.minter_initial_storage C quorum tokens fa2_address = Ok minter_record
      /\ storage_encode C Minter minter_record = Ok minter_storage
      /\ Deploy.sent st3
         = Deploy.sent st
           ++ [Deploy.Originated (contract_code C FA2) fa2_storage (Ok fa2_address);
               Deploy.Originated (contract_code C Quorum) quorum_storage (Ok quorum);
               Deploy.Originated (contract_code C Minter) minter_storage (Ok minter)].
Proof.
  intros H1 H2 H3. split.
  - unfold Deploy.run, Deploy.bindM. rewrite H1, H2, H3. reflexivity.
  - apply fa2_Ok in H1 as (v1 & v2 & v3 & v4 & r1 & s1 & E1 & F1 & T1).
    apply deploy_quorum_Ok in H2 as (qm & s2 & E2 & F2 & T2).
    apply deploy_minter_Ok in H3 as (r3 & s3 & E3 & F3 & T3).
    exists v1, v2, v3, v4, r1, s1, qm, s2, r3, s3.
    repeat (split; [assumption|]).
    rewrite T3, T2, T1, <- !app_assoc. reflexivity.
Qed.

(** C8.  A failure of any step is the failure of [run], with the state
    the failing step left: nothing is caught, nothing is sent afterwards.
    When the minter origination fails, the network has received the two
    successful originations of the FA2 and quorum contracts, then the
    failed one, and nothing else: no minter address exists and no admin
    operation was sent. *)
Theorem run_aborts_at_first_failure
  (signers : pyval) (tokens : list TokenType) (threshold : Z) (st : Deploy.state C) :
  (forall e st1,
      Deploy.fa2 C tokens st = (Raise e, st1) ->
      Deploy.run C signers tokens threshold st = (Raise e, st1))
  /\ (forall fa2_address st1 e st2,
         Deploy.fa2 C tokens st = (Ok fa2_address, st1) ->
         Deploy._deploy_quorum C signers threshold st1 = (Raise e, st2) ->
         Deploy.run C signers tokens threshold st = (Raise e, st2))
  /\ (forall fa2_address st1 quorum st2 e st3,
         Deploy.fa2 C tokens st = (Ok fa2_address, st1) ->
         Deploy._deploy_quorum C signers threshold st1 = (Ok quorum, st2) ->
         Deploy._deploy_minter C quorum tokens fa2_address st2 = (Raise e, st3) ->
         Deploy.run C signers tokens threshold st = (Raise e, st3)
         /\ exists fa2_storage quorum_storage,
             let originated :=
               [Deploy.Originated (contract_code C FA2) fa2_storage (Ok fa2_address);
                Deploy.Originated (contract_code C Quorum) quorum_storage (Ok quorum)] in
             Deploy.sent st3 = Deploy.sent st ++ originated
             \/ exists minter_storage,
                 Deploy.sent st3
                 = Deploy.sent st ++ originated
                   ++ [Deploy.Originated (contract_code C Minter) minter_storage
                         (Raise e)])
  /\ (forall fa2_address st1 quorum st2 minter st3,
         Deploy.fa2 C tokens st = (Ok fa2_address, st1) ->
         Deploy._deploy_quorum C signers threshold st1 = (Ok quorum, st2) ->
         Deploy._deploy_minter C quorum tokens fa2_address st2 = (Ok minter, st3) ->
         forall e st4,
           Deploy._set_fa2_admin C minter fa2_address st3 = (Raise e, st4) ->
           Deploy.run C signers tokens threshold st = (Raise e, st4)
           /\ Deploy.sent st4 = Deploy.sent st3).
Proof.
  repeat split.
  - intros e st1 H1. unfold Deploy.run, Deploy.bindM. now rewrite H1.
  - intros f st1 e st2 H1 H2. unfold Deploy.run, Deploy.bindM. now rewrite H1, H2.
  - unfold Deploy.run, Deploy.bindM. now rewrite H, H0, H1.
  - rename H into H1, H0 into H2, H1 into H3.
    apply fa2_Ok in H1 as (v1 & v2 & v3 & v4 & r1 & s1 & E1 & F1 & T1).
    apply deploy_quorum_Ok in H2 as (qm & s2 & E2 & F2 & T2).
    exists s1, s2. cbv zeta.
    apply deploy_minter_Raise in H3 as [T3 | (s3 & T3)].
    + left. rewrite T3, T2, T1, <- !app_assoc. reflexivity.
    + right. exists s3. rewrite T3, T2, T1, <- !app_assoc. reflexivity.
  - unfold Deploy.run, Deploy.bindM. now rewrite H, H0, H1, H2.
  - unfold Deploy._set_fa2_admin, Deploy.raise in H2. now injection H2 as _ <-.
Qed.

(** C7.  Whatever the signer mapping and the threshold, the record that
    [_deploy_quorum] builds has the caller as [admin], the threshold and
    the signers as they were given and the encoded quorum metadata, in
    that order; nothing compares the threshold with the signers.  That
    record, encoded, is what the quorum contract is originated with. *)
Theorem quorum_storage_threshold_signers
  (signers : pyval) (threshold : Z) (st : Deploy.state C) :
  exists metadata,
    _metadata_encode Deploy.quorum_metadata = Ok metadata
    /\ Deploy.quorum_storage C signers threshold metadata
       = PyDict [(str_ "admin", PyStr (public_key_hash C));
                 (str_ "threshold", PyInt threshold);
                 (str_ "signers", signers);
                 (str_ "metadata", metadata)]
    /\ getitem (Deploy.quorum_storage C signers threshold metadata) (str_ "threshold")
       = Some (PyInt threshold)
    /\ getitem (Deploy.quorum_storage C signers threshold metadata) (str_ "signers")
       = Some signers
    /\ forall storage,
        storage_encode C Quorum (Deploy.quorum_storage C signers threshold metadata)
        = Ok storage ->
        let outcome :=
          fst (originate C (contract_code C Quorum) storage (Deploy.world st)) in
        fst (Deploy._deploy_quorum C signers threshold st) = outcome
        /\ Deploy.sent (snd (Deploy._deploy_quorum C signers threshold st))
           = Deploy.sent st
             ++ [Deploy.Originated (contract_code C Quorum) storage outcome].
Proof.
  destruct quorum_metadata_encoded as [metadata E]. exists metadata.
  repeat (split; [reflexivity || assumption|]).
  intros storage F. unfold_methods. rewrite E. cbv beta iota zeta.
  cbn [Deploy.world Deploy.sent Deploy.stdout]. rewrite F. cbv beta iota.
  destruct (originate C (contract_code C Quorum) storage (Deploy.world st))
    as [[a|e] w]; split; reflexivity.
Qed.

End Sequencer.

(** ** Runs of the concrete client *)

Lemma run_stops_at_admin_handoff_witness :
  let final := Deploy.run reliable signers_a [weth] 1 (fresh reliable 0%nat) in
  fst final = Raise no_set_admin
  /\ outcomes (snd final) = [Ok (lit "KT10"); Ok (lit "KT11"); Ok (lit "KT12")].
Proof.
  cbv zeta.
  edestruct (run_stops_at_admin_handoff reliable
               signers_a [weth] 1 (fresh reliable 0%nat)) as [H _];
    [vm_compute; reflexivity | vm_compute; reflexivity | vm_compute; reflexivity |].
  rewrite H. split; [reflexivity | vm_compute; reflexivity].
Defined.

Lemma run_aborts_at_first_failure_witness :
  let final := Deploy.run flaky signers_a [weth] 1 (fresh flaky 0%nat) in
  fst final = Raise (Error (lit "OriginationError") (lit "node unreachable"))
  /\ outcomes (snd final)
     = [Ok (lit "KT10"); Ok (lit "KT11");
        Raise (Error (lit "OriginationError") (lit "node unreachable"))].
Proof.
  cbv zeta.
  destruct (run_aborts_at_first_failure flaky
              signers_a [weth] 1 (fresh flaky 0%nat)) as (_ & _ & H & _).
  edestruct H as [E _];
    [vm_compute; reflexivity | vm_compute; reflexivity | vm_compute; reflexivity |].
  rewrite E. split; [reflexivity | vm_compute; reflexivity].
Defined.

(** ** Dictionaries whose keys all come from one key type

    [mk] injects a key type ([str] through [PyStr], [int] through
    [PyInt]) on which [key_eqb] decides equality. *)

Section KeyedDict.

Variable K : Type.
Variable mk : K -> pyval.
Hypothesis key_eqb_mk : forall a b, key_eqb (mk a) (mk b) = true <-> a = b.

Lemma key_eqb_refl (a : K) : key_eqb (mk a) (mk a) = true.
Proof. now apply key_eqb_mk. Qed.

Lemma key_eqb_neq (a b : K) : a <> b -> key_eqb (mk a) (mk b) = false.
Proof.
  intros H. destruct (key_eqb (mk a) (mk b)) eqn:E; [|reflexivity].
  apply key_eqb_mk in E. contradiction.
Qed.

Lemma key_dec (a b : K) : {a = b} + {a <> b}.
Proof.
  destruct (key_eqb (mk a) (mk b)) eqn:E.
  - left. now apply key_eqb_mk.
  - right. intros ->. rewrite key_eqb_refl in E. discriminate.
Qed.

Lemma dict_get_In (d : list (K * pyval)) (k : K) (v : pyval) :
  dict_get (map (keyed mk) d) (mk k) = Some v -> In (k, v) d.
Proof.
  induction d as [|[k' v'] d IH]; simpl; [discriminate|].
  destruct (key_eqb (mk k') (mk k)) eqn:E.
  - apply key_eqb_mk in E as ->. intros H; injection H as ->. now left.
  - auto.
Qed.

Lemma dict_get_None (d : list (K * pyval)) (k : K) :
  ~ In k (keys d) -> dict_get (map (keyed mk) d) (mk k) = None.
Proof.
  induction d as [|[k' v'] d IH]; simpl; [reflexivity|]. intros H.
  rewrite key_eqb_neq by tauto. apply IH. tauto.
Qed.

(** Assigning to a new key appends an item. *)
Lemma dict_setitem_new (d : list (K * pyval)) (k : K) (v : pyval) :
  ~ In k (keys d) ->
  dict_setitem (map (keyed mk) d) (mk k) v = map (keyed mk) (d ++ [(k, v)]).
Proof.
  induction d as [|[k' v'] d IH]; simpl; [reflexivity|]. intros H.
  unfold keyed at 1; simpl. rewrite key_eqb_neq by tauto.
  rewrite IH by tauto. reflexivity.
Qed.

(** Assigning to a key, new or not, yields a dictionary of the same key
    type with the same keys in the same order, the new one last. *)
Lemma dict_setitem_keyed (d : list (K * pyval)) (k : K) (v : pyval) :
  exists d',
    dict_setitem (map (keyed mk) d) (mk k) v = map (keyed mk) d'
    /\ keys d' = (if in_dec key_dec k (keys d) then keys d else keys d ++ [k])
    /\ forall k', dict_get (map (keyed mk) d') (mk k')
                  = if key_dec k k' then Some v else dict_get (map (keyed mk) d) (mk k').
Proof.
  induction d as [|[k0 v0] d (d' & E & Hk & Hg)]; simpl.
  - exists [(k, v)]. repeat split. intros k'. simpl.
    destruct (key_dec k k') as [->|N];
      [now rewrite key_eqb_refl | now rewrite key_eqb_neq].
  - unfold keyed at 1; simpl. destruct (key_eqb (mk k0) (mk k)) eqn:E0.
    + apply key_eqb_mk in E0 as ->. exists ((k, v) :: d). repeat split.
      * simpl. destruct (key_dec k k); [|contradiction].
        destruct (in_dec key_dec k (k :: keys d)) as [|N]; [reflexivity|].
        exfalso. apply N. now left.
      * intros k'. simpl.
        destruct (key_dec k k') as [->|N];
          [now rewrite key_eqb_refl | now rewrite key_eqb_neq].
    + assert (N0 : k0 <> k) by (intros ->; rewrite key_eqb_refl in E0; discriminate).
      exists ((k0, v0) :: d'). rewrite E. repeat split.
      * simpl. rewrite Hk.
        destruct (key_dec k0 k); [contradiction|].
        destruct (in_dec key_dec k (keys d)), (in_dec key_dec k (k0 :: keys d)) as [[|]|];
          try reflexivity; try contradiction; exfalso; simpl in *; tauto.
      * intros k'. simpl. rewrite Hg.
        destruct (key_dec k k') as [->|N]; [now rewrite key_eqb_neq|].
        reflexivity.
Qed.

Lemma fold_setitem_keyed (ps d : list (K * pyval)) :
  NoDup (keys d) ->
  exists d',
    fold_left (fun acc kv => dict_setitem acc (fst kv) (snd kv)) (map (keyed mk) ps)
      (map (keyed mk) d) = map (keyed mk) d'
    /\ NoDup (keys d')
    /\ (forall k, In k (keys d') <-> In k (keys d) \/ In k (keys ps))
    /\ forall ps1 k v ps2,
        ps = ps1 ++ (k, v) :: ps2 -> ~ In k (keys ps2) ->
        dict_get (map (keyed mk) d') (mk k) = Some v.
Proof.
  revert d. induction ps as [|[k v] ps IH]; intros d Hd; simpl.
  - exists d. repeat split; auto; try tauto.
    intros [|? ?] ? ? ? H; discriminate.
  - destruct (dict_setitem_keyed d k v) as (d1 & E1 & K1 & G1).
    rewrite E1.
    assert (Hd1 : NoDup (keys d1)).
    { rewrite K1. destruct (in_dec key_dec k (keys d)); [exact Hd|].
      apply NoDup_app; [exact Hd | repeat constructor; simpl; tauto |].
      intros x Hx [<-|[]]. contradiction. }
    destruct (IH d1 Hd1) as (d' & E & Hn & Hk & Hg).
    exists d'. split; [exact E|]. split; [exact Hn|]. split.
    + intros k'. rewrite Hk, K1.
      destruct (in_dec key_dec k (keys d)) as [Hin|Hin].
      * split; [tauto|]. intros [|[<-|]]; tauto.
      * rewrite in_app_iff. simpl. tauto.
    + intros ps1 k' v' ps2 Hps Hlast.
      destruct ps1 as [|p ps1]; simpl in Hps;
        [injection Hps as -> -> -> | injection Hps as <- ->].
      * assert (G : dict_get (map (keyed mk) d1) (mk k') = Some v').
        { rewrite G1. destruct (key_dec k' k'); [reflexivity | contradiction]. }
        clear -E G Hlast key_eqb_mk. revert d1 E G.
        induction ps2 as [|[k2 v2] ps2 IH2]; intros d1 E G; simpl in *.
        -- apply (f_equal (fun l => dict_get l (mk k'))) in E. congruence.
        -- destruct (dict_setitem_keyed d1 k2 v2) as (d2 & E2 & _ & G2).
           rewrite E2 in E.
           apply (IH2 (fun H => Hlast (or_intror H)) d2 E).
           rewrite G2. destruct (key_dec k2 k') as [->|]; [|exact G].
           exfalso. apply Hlast. now left.
      * eapply Hg; eauto.
Qed.

(** [dict(pairs)]: every key once, each with the value of its last pair. *)
Lemma dict_of_pairs_keyed (ps : list (K * pyval)) :
  exists d,
    dict_of_pairs (map (keyed mk) ps) = map (keyed mk) d
    /\ NoDup (keys d)
    /\ (forall k, In k (keys d) <-> In k (keys ps))
    /\ forall ps1 k v ps2,
        ps = ps1 ++ (k, v) :: ps2 -> ~ In k (keys ps2) ->
        dict_get (map (keyed mk) d) (mk k) = Some v.
Proof.
  destruct (fold_setitem_keyed ps [] (NoDup_nil K)) as (d & E & Hn & Hk & Hg).
  exists d. split; [exact E|]. split; [exact Hn|]. split; [|exact Hg].
  intros k. rewrite Hk. simpl. tauto.
Qed.

(** Distinct keys: [dict(pairs)] is the list of pairs itself. *)
Lemma dict_of_pairs_NoDup (ps : list (K * pyval)) :
  NoDup (keys ps) -> dict_of_pairs (map (keyed mk) ps) = map (keyed mk) ps.
Proof.
  unfold dict_of_pairs. intros H.
  enough (G : forall d, NoDup (keys (d ++ ps)) ->
                        fold_left (fun acc kv => dict_setitem acc (fst kv) (snd kv))
                          (map (keyed mk) ps) (map (keyed mk) d) = map (keyed mk) (d ++ ps))
    by exact (G [] H).
  clear H. induction ps as [|[k v] ps IH]; intros d H; simpl.
  - now rewrite app_nil_r.
  - unfold keyed at 2; simpl. rewrite dict_setitem_new.
    + rewrite IH; rewrite <- app_assoc; [reflexivity | exact H].
    + unfold keys in *. rewrite map_app in H. simpl in H.
      apply NoDup_remove_2 in H. rewrite in_app_iff in H. tauto.
Qed.

(** In a dictionary without repeated keys a key that is found has exactly
    one item. *)
Lemma filter_key_NoDup (d : list (K * pyval)) (k : K) (v : pyval) :
  NoDup (keys d) ->
  dict_get (map (keyed mk) d) (mk k) = Some v ->
  filter (fun kv => key_eqb (fst kv) (mk k)) (map (keyed mk) d) = [(mk k, v)].
Proof.
  induction d as [|[k' v'] d IH]; simpl; [discriminate|].
  intros Hn. inversion Hn as [|? ? Hnot Hn']; subst.
  destruct (key_eqb (mk k') (mk k)) eqn:E.
  - apply key_eqb_mk in E as ->. intros H; injection H as ->.
    unfold keyed at 1; simpl. f_equal.
    clear IH Hn Hn'. induction d as [|[k2 v2] d IH]; simpl; [reflexivity|].
    rewrite key_eqb_neq; [apply IH|]; simpl in Hnot; tauto.
  - auto.
Qed.

(** Without repeated keys, the item at a position is the one found under
    its key. *)
Lemma dict_get_nth (d : list (K * pyval)) (n : nat) (k : K) (v : pyval) :
  NoDup (keys d) ->
  nth_error d n = Some (k, v) ->
  dict_get (map (keyed mk) d) (mk k) = Some v.
Proof.
  revert n. induction d as [|[k' v'] d IH]; intros [|n] Hn H; try discriminate;
    simpl in *.
  - injection H as -> ->. now rewrite key_eqb_refl.
  - inversion Hn as [|? ? Hnot Hn']; subst.
    rewrite key_eqb_neq; [eapply IH; eauto|].
    intros ->. apply Hnot. apply nth_error_In in H.
    change k with (fst (k, v)). now apply in_map.
Qed.

End KeyedDict.


Lemma key_eqb_PyStr (a b : pystr) : key_eqb (PyStr a) (PyStr b) = true <-> a = b.
Proof.
  simpl. unfold str_eqb. destruct (list_eq_dec N.eq_dec a b); split; auto; discriminate.
Qed.

Lemma key_eqb_PyInt (a b : Z) : key_eqb (PyInt a) (PyInt b) = true <-> a = b.
Proof. simpl. apply Z.eqb_eq. Qed.

(** ** Positions: [enumerate] *)

Lemma enumerate_from_0 {A} (l : list A) : enumerate l = enumerate_from 0 l.
Proof. reflexivity. Qed.

Lemma enumerate_from_cons {A} (a : nat) (x : A) (l : list A) :
  enumerate_from a (x :: l) = (Z.of_nat a, x) :: enumerate_from (S a) l.
Proof. reflexivity. Qed.


Lemma enumerate_from_fst {A} (a : nat) (l : list A) :
  map fst (enumerate_from a l) = map Z.of_nat (seq a (List.length l)).
Proof.
  revert a. induction l as [|x l IH]; intros a; [reflexivity|].
  rewrite enumerate_from_cons. simpl. now rewrite IH.
Qed.

Lemma enumerate_from_nth {A} (a : nat) (l : list A) (i : nat) (x : A) :
  nth_error l i = Some x ->
  nth_error (enumerate_from a l) i = Some (Z.of_nat (a + i), x).
Proof.
  revert a i. induction l as [|y l IH]; intros a [|i] H; try discriminate;
    rewrite enumerate_from_cons; simpl in *.
  - injection H as ->. now rewrite Nat.add_0_r.
  - rewrite (IH (S a) i H). do 3 f_equal. lia.
Qed.

Lemma enumerate_from_In {A} (a : nat) (l : list A) (k : Z) (x : A) :
  In (k, x) (enumerate_from a l) ->
  exists i, k = Z.of_nat (a + i) /\ nth_error l i = Some x.
Proof.
  revert a. induction l as [|y l IH]; intros a; [intros []|].
  rewrite enumerate_from_cons. intros [H|H].
  - injection H as <- <-. exists 0%nat. now rewrite Nat.add_0_r.
  - apply IH in H as (i & -> & H). exists (S i). split; [f_equal; lia | exact H].
Qed.

Lemma enumerate_from_split {A} (a : nat) (l : list A) (j : nat) (x : A) :
  nth_error l j = Some x ->
  exists l1 l2,
    enumerate_from a l = l1 ++ (Z.of_nat (a + j), x) :: l2
    /\ forall k y, In (k, y) l2 ->
                   exists n, (j < n)%nat /\ k = Z.of_nat (a + n) /\ nth_error l n = Some y.
Proof.
  revert a j. induction l as [|y l IH]; intros a [|j] H; try discriminate;
    simpl in H.
  - injection H as ->. exists [], (enumerate_from (S a) l).
    rewrite enumerate_from_cons, Nat.add_0_r. split; [reflexivity|].
    intros k z Hin. apply enumerate_from_In in Hin as (i & -> & Hi).
    exists (S i). repeat split; [lia | f_equal; lia | exact Hi].
  - destruct (IH (S a) j H) as (l1 & l2 & E & Hl2).
    exists ((Z.of_nat a, y) :: l1), l2. rewrite enumerate_from_cons, E. split.
    + replace (S a + j)%nat with (a + S j)%nat by lia. reflexivity.
    + intros k z Hin. apply Hl2 in Hin as (n & Hn & -> & Hz).
      exists (S n). repeat split; [lia | f_equal; lia | exact Hz].
Qed.

Lemma NoDup_positions (a n : nat) : NoDup (map Z.of_nat (seq a n)).
Proof.
  revert a. induction n as [|n IH]; intros a; simpl; constructor; [|apply IH].
  rewrite in_map_iff. intros (x & Hx & Hin).
  apply Nat2Z.inj in Hx as ->. apply in_seq in Hin. lia.
Qed.

(** The last position at which a property holds. *)
Lemma last_position {A} (P : A -> bool) (l : list A) :
  forall i x,
    nth_error l i = Some x -> P x = true ->
    exists j y,
      (i <= j)%nat /\ nth_error l j = Some y /\ P y = true
      /\ forall k z, (j < k)%nat -> nth_error l k = Some z -> P z = false.
Proof.
  induction l as [|a l IH]; intros [|i] x; simpl; try discriminate.
  - intros H Hx; injection H as ->.
    destruct (existsb P l) eqn:E.
    + apply existsb_exists in E as (y & Hin & Hy).
      apply In_nth_error in Hin as (n & Hn).
      destruct (IH n y Hn Hy) as (j & z & _ & Hj & Hz & Hlast).
      exists (S j), z. repeat split; [lia | exact Hj | exact Hz |].
      intros [|k] w Hk; [lia|]. simpl. apply Hlast. lia.
    + exists 0%nat, x. repeat split; auto.
      intros [|k] w Hk; [lia|]. simpl. intros Hw.
      destruct (P w) eqn:Pw; [|reflexivity].
      assert (existsb P l = true)
        by (apply existsb_exists; exists w; split; [eapply nth_error_In; eauto | auto]).
      congruence.
  - intros H Hx. destruct (IH i x H Hx) as (j & z & Hij & Hj & Hz & Hlast).
    exists (S j), z. repeat split; [lia | exact Hj | exact Hz |].
    intros [|k] w Hk; [lia|]. simpl. apply Hlast. lia.
Qed.

(** ** The minter's token mapping *)

Lemma minter_tokens_pairs (tokens : list TokenType) (fa2_contract : pystr) :
  Deploy.minter_tokens tokens fa2_contract
  = PyDict (dict_of_pairs
              (map (keyed PyStr) (map (token_pair fa2_contract) (enumerate tokens)))).
Proof. unfold Deploy.minter_tokens. now rewrite map_map. Qed.

Lemma token_pair_keys (fa2_contract : pystr) (l : list (Z * TokenType)) (k : pystr) :
  In k (keys (map (token_pair fa2_contract) l))
  <-> exists n v, In (n, v) l /\ token_key v = k.
Proof.
  unfold keys. rewrite map_map, in_map_iff. split.
  - intros ([n v] & <- & H). eauto.
  - intros (n & v & H & <-). exists (n, v). auto.
Qed.

(** The mapping has every stripped address once, its keys are strings,
    and the value under a key is the pair made from the last position
    that carries it. *)
Lemma minter_tokens_last (tokens : list TokenType) (fa2_contract : pystr) :
  exists d,
    Deploy.minter_tokens tokens fa2_contract = PyDict (map (keyed PyStr) d)
    /\ NoDup (keys d)
    /\ (forall k, In k (keys d)
                  <-> exists i v, nth_error tokens i = Some v /\ token_key v = k)
    /\ forall j v,
        nth_error tokens j = Some v ->
        (forall k z, (j < k)%nat -> nth_error tokens k = Some z ->
                     token_key z <> token_key v) ->
        dict_get (map (keyed PyStr) d) (PyStr (token_key v))
        = Some (PyList [PyStr fa2_contract; PyInt (Z.of_nat j)]).
Proof.
  destruct (dict_of_pairs_keyed _ PyStr key_eqb_PyStr
              (map (token_pair fa2_contract) (enumerate tokens)))
    as (d & E & Hn & Hk & Hg).
  exists d. rewrite minter_tokens_pairs, E. split; [reflexivity|].
  split; [exact Hn|]. split.
  - intros k. rewrite Hk, token_pair_keys. split.
    + intros (n & v & Hin & <-).
      apply (enumerate_from_In 0) in Hin as (i & _ & Hi). eauto.
    + intros (i & v & Hi & <-). exists (Z.of_nat i), v. split; [|reflexivity].
      apply (nth_error_In _ i). now apply (enumerate_from_nth 0 tokens i v).
  - intros j v Hj Hlast.
    destruct (enumerate_from_split 0 tokens j v Hj) as (l1 & l2 & El & Hl2).
    apply (Hg (map (token_pair fa2_contract) l1) _ _
             (map (token_pair fa2_contract) l2)).
    + rewrite enumerate_from_0, El, map_app. reflexivity.
    + rewrite token_pair_keys. intros (n & z & Hin & Hz).
      apply Hl2 in Hin as (k & Hk' & _ & Hzk). exact (Hlast k z Hk' Hzk Hz).
Qed.

Lemma NoDup_nth_error_eq {A} (l : list A) (i j : nat) (x : A) :
  NoDup l -> nth_error l i = Some x -> nth_error l j = Some x -> i = j.
Proof.
  intros Hn Hi Hj. rewrite NoDup_nth_error in Hn. apply Hn.
  - apply nth_error_Some. congruence.
  - congruence.
Qed.


(** ** The FA2 token metadata *)

Lemma str_encode_encodable (s : pystr) :
  encodable s = true -> str_encode s = Ok (utf8_bytes s).
Proof.
  unfold encodable, str_encode, utf8_bytes. intros H. apply negb_true_iff in H.
  assert (E : mapM utf8_encode_cp s = Ok (map utf8_cp s)).
  { induction s as [|c s IH]; simpl in *; [reflexivity|].
    apply orb_false_iff in H as [Hc Hs]. unfold utf8_encode_cp at 1.
    now rewrite Hc, (IH Hs). }
  rewrite E. simpl. now rewrite flat_map_concat_map.
Qed.

Lemma str_encode_surrogate (s : pystr) :
  encodable s = false -> str_encode s = Raise UnicodeEncodeError.
Proof.
  unfold encodable, str_encode. intros H. apply negb_false_iff in H.
  assert (E : mapM utf8_encode_cp s = Raise UnicodeEncodeError).
  { induction s as [|c s IH]; simpl in *; [discriminate|].
    unfold utf8_encode_cp at 1. destruct (is_surrogate c); simpl in *; [reflexivity|].
    now rewrite (IH H). }
  now rewrite E.
Qed.

Lemma is_ascii_encodable (s : pystr) : is_ascii s -> encodable s = true.
Proof.
  unfold encodable. intros H. apply negb_true_iff.
  induction H as [|c s Hc _ IH]; simpl; [reflexivity|]. rewrite IH, orb_false_r.
  unfold is_surrogate. apply andb_false_iff. left. apply N.leb_gt. lia.
Qed.

Lemma encode_hex_encodable (s : pystr) :
  encodable s = true -> encode_hex s = Ok (hex_text s).
Proof. intros H. unfold encode_hex. now rewrite (str_encode_encodable s H). Qed.

Lemma token_metadata_item_encodable (k : Z) (v : TokenType) :
  token_encodable v = true ->
  Deploy.token_metadata_item k v = Ok (PyInt k, fa2_entry k v).
Proof.
  unfold token_encodable. intros H.
  apply andb_prop in H as [H Hs]. apply andb_prop in H as [H Hn].
  apply andb_prop in H as [Hc He].
  unfold Deploy.token_metadata_item.
  rewrite (encode_hex_encodable _ (is_ascii_encodable _ (int_str_ascii (decimals v)))).
  simpl. rewrite (encode_hex_encodable _ Hc). simpl.
  rewrite (encode_hex_encodable _ He). simpl.
  rewrite (encode_hex_encodable _ Hn). simpl.
  rewrite (encode_hex_encodable _ Hs). reflexivity.
Qed.

(** Whatever the strings, an item that is built has the position as its
    key and as its [token_id]. *)
Lemma token_metadata_item_key (k : Z) (v : TokenType) (p : pyval * pyval) :
  Deploy.token_metadata_item k v = Ok p ->
  fst p = PyInt k /\ getitem (snd p) (str_ "token_id") = Some (PyInt k).
Proof.
  unfold Deploy.token_metadata_item. intros H.
  repeat (apply bind_Ok in H as (? & _ & H)). injection H as <-. split; reflexivity.
Qed.

Lemma map_fst_combine {A B} (a : list A) (b : list B) :
  List.length a = List.length b -> map fst (combine a b) = a.
Proof.
  revert b. induction a as [|x a IH]; intros [|y b] H; try discriminate;
    [reflexivity|]. simpl. f_equal. apply IH. now injection H.
Qed.

Lemma nth_error_combine {A B} (a : list A) (b : list B) (i : nat) (x : A) (y : B) :
  nth_error a i = Some x -> nth_error b i = Some y ->
  nth_error (combine a b) i = Some (x, y).
Proof.
  revert b i. induction a as [|x' a IH]; intros [|y' b] [|i]; simpl;
    try discriminate.
  - now intros [= ->] [= ->].
  - apply IH.
Qed.

(** The dictionary [token_metadata]: one item per position, in order. *)
Lemma fa2_token_metadata_Ok (tokens : list TokenType) (token_metadata : pyval) :
  Deploy.fa2_token_metadata tokens = Ok token_metadata ->
  exists entries,
    Forall2 (fun kv entry =>
               Deploy.token_metadata_item (fst kv) (snd kv) = Ok (PyInt (fst kv), entry))
      (enumerate tokens) entries
    /\ token_metadata
       = PyDict (map (keyed PyInt) (combine (map fst (enumerate tokens)) entries)).
Proof.
  unfold Deploy.fa2_token_metadata. intros H.
  apply bind_Ok in H as (pairs & Hp & H). injection H as <-.
  apply mapM_Ok in Hp. exists (map snd pairs).
  assert (HF : Forall2 (fun kv entry =>
                 Deploy.token_metadata_item (fst kv) (snd kv) = Ok (PyInt (fst kv), entry))
                 (enumerate tokens) (map snd pairs)
               /\ pairs = map (keyed PyInt)
                            (combine (map fst (enumerate tokens)) (map snd pairs))).
  { induction Hp as [|[k v] [k' e] l ps Hkp _ [IH1 IH2]]; simpl;
      [split; [constructor | reflexivity]|].
    destruct (token_metadata_item_key _ _ _ Hkp) as [Hk _]. simpl in Hk. subst k'.
    split; [constructor; assumption|]. unfold keyed at 1; simpl. now f_equal. }
  destruct HF as [HF Hpairs]. split; [exact HF|].
  rewrite Hpairs at 1. rewrite (dict_of_pairs_NoDup _ PyInt key_eqb_PyInt); [reflexivity|].
  unfold keys. rewrite map_fst_combine.
  - rewrite enumerate_from_0, enumerate_from_fst. apply NoDup_positions.
  - rewrite length_map. apply (Forall2_length HF).
Qed.

Lemma fa2_token_metadata_encodable (tokens : list TokenType) :
  forallb token_encodable tokens = true ->
  Deploy.fa2_token_metadata tokens
  = Ok (PyDict (map (fun kv => (PyInt (fst kv), fa2_entry (fst kv) (snd kv)))
                  (enumerate tokens))).
Proof.
  intros H. unfold Deploy.fa2_token_metadata.
  assert (E : mapM (fun kv => Deploy.token_metadata_item (fst kv) (snd kv))
                (enumerate tokens)
              = Ok (map (fun kv => (PyInt (fst kv), fa2_entry (fst kv) (snd kv)))
                      (enumerate tokens))).
  { apply mapM_Forall2. rewrite enumerate_from_0. generalize 0%nat as a.
    induction tokens as [|v l IH]; intros a; [constructor|].
    simpl in H. apply andb_prop in H as [Hv Hl].
    rewrite enumerate_from_cons. simpl. constructor; [|apply IH; exact Hl].
    now apply token_metadata_item_encodable. }
  rewrite E. simpl. f_equal. f_equal.
  rewrite <- (map_map (fun kv => (fst kv, fa2_entry (fst kv) (snd kv))) (keyed PyInt)).
  apply (dict_of_pairs_NoDup _ PyInt key_eqb_PyInt).
  unfold keys. rewrite map_map. simpl.
  rewrite enumerate_from_0, enumerate_from_fst. apply NoDup_positions.
Qed.

Lemma fa2_supply_positions (tokens : list TokenType) :
  Deploy.fa2_supply tokens
  = PyDict (map (fun kv => (PyInt (fst kv), PyInt 0)) (enumerate tokens)).
Proof.
  unfold Deploy.fa2_supply. f_equal.
  rewrite <- (map_map (fun kv : Z * TokenType => (fst kv, PyInt 0)) (keyed PyInt)).
  apply (dict_of_pairs_NoDup _ PyInt key_eqb_PyInt).
  unfold keys. rewrite map_map. simpl.
  rewrite enumerate_from_0, enumerate_from_fst. apply NoDup_positions.
Qed.

Lemma Forall2_nth_l {A B} (R : A -> B -> Prop) (l : list A) (l' : list B)
  (i : nat) (x : A) :
  Forall2 R l l' -> nth_error l i = Some x ->
  exists y, nth_error l' i = Some y /\ R x y.
Proof.
  intros H. revert i. induction H as [|a b l l' Hab _ IH]; intros [|i] Hi;
    try discriminate; simpl in *.
  - injection Hi as ->. eauto.
  - eauto.
Qed.

(** C4, as amended.  For every token list [L] and every position [i] of
    it: the FA2 record's [token_metadata] binds [i] to the entry built
    from [L[i]], whose [token_id] is [i], and [token_total_supply] binds
    [i] to 0, whatever the specs contain; the minter's [tokens] binds the
    stripped address of [L[i]] to [fa2, i] provided no later spec has
    the same stripped address. *)
Theorem token_index_is_position
  (tokens : list TokenType) (fa2_contract : pystr) (i : nat) (v : TokenType) :
  nth_error tokens i = Some v ->
  (forall token_metadata,
      Deploy.fa2_token_metadata tokens = Ok token_metadata ->
      exists entry,
        Deploy.token_metadata_item (Z.of_nat i) v = Ok (PyInt (Z.of_nat i), entry)
        /\ getitem token_metadata (PyInt (Z.of_nat i)) = Some entry
        /\ getitem entry (str_ "token_id") = Some (PyInt (Z.of_nat i)))
  /\ getitem (Deploy.fa2_supply tokens) (PyInt (Z.of_nat i)) = Some (PyInt 0)
  /\ ((forall k z, (i < k)%nat -> nth_error tokens k = Some z ->
                   skipn 2 (eth_contract z) <> skipn 2 (eth_contract v)) ->
      getitem (Deploy.minter_tokens tokens fa2_contract)
        (PyStr (skipn 2 (eth_contract v)))
      = Some (PyList [PyStr fa2_contract; PyInt (Z.of_nat i)])).
Proof.
  intros Hi.
  pose proof (enumerate_from_nth 0 tokens i v Hi) as Hn. simpl in Hn.
  rewrite <- enumerate_from_0 in Hn.
  split; [|split].
  - intros tm H. apply fa2_token_metadata_Ok in H as (entries & HF & ->).
    destruct (Forall2_nth_l _ _ _ i _ HF Hn) as (entry & He & Hitem). simpl in Hitem.
    exists entry. split; [exact Hitem|]. split.
    + unfold getitem.
      apply (dict_get_nth _ PyInt key_eqb_PyInt _ i).
      * unfold keys.
        rewrite map_fst_combine by (rewrite length_map; apply (Forall2_length HF)).
        rewrite enumerate_from_0, enumerate_from_fst. apply NoDup_positions.
      * apply nth_error_combine; [|exact He].
        now rewrite nth_error_map, Hn.
    + apply (token_metadata_item_key _ _ _ Hitem).
  - rewrite fa2_supply_positions. unfold getitem.
    rewrite <- (map_map (fun kv : Z * TokenType => (fst kv, PyInt 0)) (keyed PyInt)).
    apply (dict_get_nth _ PyInt key_eqb_PyInt _ i).
    + unfold keys. rewrite map_map. simpl.
      rewrite enumerate_from_0, enumerate_from_fst. apply NoDup_positions.
    + now rewrite nth_error_map, Hn.
  - intros Hlast.
    destruct (minter_tokens_last tokens fa2_contract) as (d & -> & _ & _ & Hg).
    exact (Hg i v Hi Hlast).
Qed.

Lemma token_index_is_position_witness :
  getitem (Deploy.fa2_supply [weth; weth]) (PyInt 1) = Some (PyInt 0)
  /\ getitem (Deploy.minter_tokens [weth; weth] (lit "KT1fa2")) (str_ "01")
     = Some (PyList [str_ "KT1fa2"; PyInt 1]).
Proof.
  destruct (token_index_is_position [weth; weth] (lit "KT1fa2") 1 weth eq_refl)
    as (_ & Hs & Hm).
  split; [exact Hs|]. apply Hm.
  intros [|[|[|k]]] z Hk Hz; try lia; discriminate.
Defined.

(** C4 as stated fails: with the same address twice, the minter's mapping
    binds the address of the spec at position 0 to position 1. *)
Lemma token_index_not_always_position :
  ~ (forall (tokens : list TokenType) (fa2_contract : pystr) (i : nat) (v : TokenType),
        nth_error tokens i = Some v ->
        getitem (Deploy.minter_tokens tokens fa2_contract)
          (PyStr (skipn 2 (eth_contract v)))
        = Some (PyList [PyStr fa2_contract; PyInt (Z.of_nat i)])).
Proof.
  intros H. specialize (H [weth; weth] (lit "KT1fa2") 0%nat weth eq_refl).
  vm_compute in H. discriminate.
Qed.

(** C10, as amended.  When two specs at positions [i < j] have the same
    ethContract after the first two characters are dropped, and no spec
    after [j] has it, the minter's [tokens] mapping holds exactly one item
    under that key, [fa2, j], and has fewer items than the list has
    specs. *)
Theorem minter_tokens_later_spec_wins
  (tokens : list TokenType) (fa2_contract : pystr) (i j : nat) (vi vj : TokenType) :
  (i < j)%nat ->
  nth_error tokens i = Some vi ->
  nth_error tokens j = Some vj ->
  skipn 2 (eth_contract vi) = skipn 2 (eth_contract vj) ->
  (forall k z, (j < k)%nat -> nth_error tokens k = Some z ->
               skipn 2 (eth_contract z) <> skipn 2 (eth_contract vj)) ->
  exists entries,
    Deploy.minter_tokens tokens fa2_contract = PyDict entries
    /\ filter (fun kv => key_eqb (fst kv) (PyStr (skipn 2 (eth_contract vj)))) entries
       = [(PyStr (skipn 2 (eth_contract vj)),
           PyList [PyStr fa2_contract; PyInt (Z.of_nat j)])]
    /\ (List.length entries < List.length tokens)%nat.
Proof.
  intros Hij Hi Hj Hkey Hlast.
  destruct (minter_tokens_last tokens fa2_contract) as (d & E & Hn & Hk & Hg).
  exists (map (keyed PyStr) d). split; [exact E|]. split.
  - apply (filter_key_NoDup _ PyStr key_eqb_PyStr); [exact Hn|].
    exact (Hg j vj Hj Hlast).
  - rewrite length_map.
    destruct (Nat.lt_ge_cases (List.length d) (List.length tokens)) as [|Hge];
      [assumption|exfalso].
    assert (Hnd : NoDup (map token_key tokens)).
    { apply (NoDup_incl_NoDup (l := keys d)); [exact Hn | |].
      - unfold keys. rewrite !length_map. exact Hge.
      - intros k Hin. apply Hk in Hin as (n & z & Hz & <-).
        apply in_map. eapply nth_error_In; eauto. }
    assert (i = j); [|lia].
    apply (NoDup_nth_error_eq (map token_key tokens) i j (token_key vj) Hnd).
    + rewrite nth_error_map, Hi. simpl. f_equal. exact Hkey.
    + now rewrite nth_error_map, Hj.
Qed.

Lemma minter_tokens_later_spec_wins_witness :
  exists entries,
    Deploy.minter_tokens [weth; weth] (lit "KT1fa2") = PyDict entries
    /\ filter (fun kv => key_eqb (fst kv) (str_ "01")) entries
       = [(str_ "01", PyList [str_ "KT1fa2"; PyInt 1])]
    /\ (List.length entries < 2)%nat.
Proof.
  apply (minter_tokens_later_spec_wins [weth; weth] (lit "KT1fa2") 0 1 weth weth);
    try reflexivity; [lia|].
  intros [|[|[|k]]] z Hk Hz; try lia; discriminate.
Defined.

(** C10 as stated fails: with the same address at positions 0, 1 and 2,
    the item under that address holds position 2, not 1. *)
Lemma minter_tokens_index_not_always_j :
  ~ (forall (tokens : list TokenType) (fa2_contract : pystr) (i j : nat)
            (vi vj : TokenType),
        (i < j)%nat ->
        nth_error tokens i = Some vi ->
        nth_error tokens j = Some vj ->
        skipn 2 (eth_contract vi) = skipn 2 (eth_contract vj) ->
        getitem (Deploy.minter_tokens tokens fa2_contract)
          (PyStr (skipn 2 (eth_contract vj)))
        = Some (PyList [PyStr fa2_contract; PyInt (Z.of_nat j)])).
Proof.
  intros H.
  specialize (H [weth; weth; weth] (lit "KT1fa2") 0%nat 1%nat weth weth
                (Nat.lt_0_succ 0) eq_refl eq_refl eq_refl).
  vm_compute in H. discriminate.
Qed.




(** ** Reading back what the encoder wrote *)

Ltac ncases :=
  repeat match goal with
    | |- context [(?a =? ?b)%N] => destruct (N.eqb_spec a b); try lia
    | |- context [(?a <=? ?b)%N] => destruct (N.leb_spec a b); try lia
    | |- context [(?a <? ?b)%N] => destruct (N.ltb_spec a b); try lia
    end.

(** *** Hexadecimal text *)

Lemma byte_of_to_N (b : byte) : byte_of_N (Byte.to_N b) = b.
Proof.
  unfold byte_of_N. pose proof (Byte.to_N_bounded b).
  rewrite N.mod_small by lia. now rewrite Byte.of_to_N.
Qed.

Lemma to_N_byte_of_N (n : N) : (n < 256)%N -> Byte.to_N (byte_of_N n) = n.
Proof.
  intros H. unfold byte_of_N. rewrite N.mod_small by exact H.
  destruct (Byte.of_N n) eqn:E; [now apply Byte.to_of_N|].
  apply Byte.of_N_None_iff in E. lia.
Qed.

Lemma hexval_hexdigit (n : N) : (n < 16)%N -> hexval (hexdigit n) = Some n.
Proof.
  intros H. unfold hexdigit. destruct (N.ltb_spec n 10); unfold hexval;
    ncases; cbn [andb]; f_equal; lia.
Qed.

Lemma hexdigit_not_space (n : N) : (n < 16)%N -> is_ascii_space (hexdigit n) = false.
Proof.
  intros H. unfold hexdigit. destruct (N.ltb_spec n 10); unfold is_ascii_space;
    ncases; reflexivity.
Qed.

Lemma bytes_fromhex_hex (b : bytes) : bytes_fromhex (bytes_hex b) = Ok b.
Proof.
  induction b as [|x b IH]; [reflexivity|].
  pose proof (Byte.to_N_bounded x) as Hx.
  assert (H1 : (Byte.to_N x / 16 < 16)%N) by (apply N.Div0.div_lt_upper_bound; lia).
  pose proof (mod16_lt (Byte.to_N x)) as H2.
  change (bytes_hex (x :: b))
    with (hexdigit (Byte.to_N x / 16) :: hexdigit (Byte.to_N x mod 16) :: bytes_hex b).
  cbn [bytes_fromhex].
  rewrite (hexdigit_not_space _ H1), (hexval_hexdigit _ H1), (hexval_hexdigit _ H2), IH.
  cbn [Py.bind]. rewrite <- N.div_mod by discriminate. now rewrite byte_of_to_N.
Qed.

Lemma bytes_decode_ascii (s : pystr) :
  is_ascii s -> bytes_decode (map byte_of_N s) = Ok s.
Proof.
  induction 1 as [|c s Hc _ IH]; [reflexivity|]. cbn [map bytes_decode].
  rewrite to_N_byte_of_N by lia. apply N.ltb_lt in Hc. now rewrite Hc, IH.
Qed.

(** *** Strings *)






Lemma scanstring_quote (fuel : nat) (rest : pystr) :
  Json.scanstring (S fuel) (34%N :: rest) = Ok ([], rest).
Proof. reflexivity. Qed.

Lemma lor_disjoint (a b n : N) :
  (a mod 2 ^ n = 0)%N -> (b < 2 ^ n)%N -> N.lor a b = (a + b)%N.
Proof.
  intros Ha Hb.
  assert (H : N.land a b = 0%N).
  { rewrite <- (N.mod_small b (2 ^ n)) by exact Hb.
    rewrite <- N.land_ones, (N.land_comm b), N.land_assoc, N.land_ones, Ha.
    apply N.land_0_l. }
  now rewrite <- (N.lxor_lor _ _ H), <- (N.add_nocarry_lxor _ _ H).
Qed.

Section SurrogateHalves.

Variable c : N.
Hypothesis c_astral : (0x10000 <= c)%N.
Hypothesis c_valid : (c < 0x110000)%N.







End SurrogateHalves.







(** *** Numbers *)













(** *** Whitespace and first characters *)




(** *** Arrays and objects *)

Section Loops.

Variables indent level : nat.
Variable scan : pystr -> result (pyval * pystr).









End Loops.

(** *** The decoder inverts the encoder on native values *)















(* ===================================================================== *)
(** * Further properties of src/deploy.py and src/token.py

    The embedding has no recursion limit: a document nested deeper than
    the interpreter allows is outside the statements about [json]. *)
(* ===================================================================== *)

(** ** UTF-8: decoding what was encoded *)

Ltac ndivmod := zify; Z.to_euclidean_division_equations; lia.

Lemma to_N_lor (m x k : N) :
  (m mod 2 ^ k = 0)%N -> (x < 2 ^ k)%N -> (m + 2 ^ k <= 256)%N ->
  Byte.to_N (byte_of_N (N.lor m x)) = (m + x)%N.
Proof.
  intros Hm Hx Hb. rewrite (lor_disjoint m x k Hm Hx).
  apply to_N_byte_of_N. lia.
Qed.

Lemma decode_step1 (b0 : byte) (r : bytes) :
  (Byte.to_N b0 < 0x80)%N ->
  bytes_decode (b0 :: r) = Py.bind (bytes_decode r) (fun s => Ok (Byte.to_N b0 :: s)).
Proof. intros H. cbn [bytes_decode]. apply N.ltb_lt in H. now rewrite H. Qed.

Lemma decode_step2 (b0 b1 : byte) (r : bytes) :
  (0xC2 <= Byte.to_N b0 < 0xE0)%N -> is_cont b1 = true ->
  bytes_decode (b0 :: b1 :: r)
  = Py.bind (bytes_decode r) (fun s =>
      Ok (N.lor (N.shiftl (N.land (Byte.to_N b0) 0x1F) 6) (cont_bits b1) :: s)).
Proof.
  intros H H1. remember (b1 :: r) as t eqn:E. cbn [bytes_decode].
  destruct (N.ltb_spec (Byte.to_N b0) 0x80); [lia|].
  destruct (N.ltb_spec (Byte.to_N b0) 0xC2); [lia|].
  destruct (N.ltb_spec (Byte.to_N b0) 0xE0); [|lia].
  subst t. now rewrite H1.
Qed.

Lemma decode_step3 (b0 b1 b2 : byte) (r : bytes) :
  let c := N.lor (N.shiftl (N.land (Byte.to_N b0) 0x0F) 12)
             (N.lor (N.shiftl (cont_bits b1) 6) (cont_bits b2)) in
  (0xE0 <= Byte.to_N b0 < 0xF0)%N -> is_cont b1 = true -> is_cont b2 = true ->
  (0x800 <= c)%N -> is_surrogate c = false ->
  bytes_decode (b0 :: b1 :: b2 :: r)
  = Py.bind (bytes_decode r) (fun s => Ok (c :: s)).
Proof.
  intros c H H1 H2 Hc Hs. remember (b1 :: b2 :: r) as t eqn:E. cbn [bytes_decode].
  destruct (N.ltb_spec (Byte.to_N b0) 0x80); [lia|].
  destruct (N.ltb_spec (Byte.to_N b0) 0xC2); [lia|].
  destruct (N.ltb_spec (Byte.to_N b0) 0xE0); [lia|].
  destruct (N.ltb_spec (Byte.to_N b0) 0xF0); [|lia].
  subst t. fold c. rewrite H1, H2, Hs. apply N.leb_le in Hc. now rewrite Hc.
Qed.

Lemma decode_step4 (b0 b1 b2 b3 : byte) (r : bytes) :
  let c := N.lor (N.shiftl (N.land (Byte.to_N b0) 0x07) 18)
             (N.lor (N.shiftl (cont_bits b1) 12)
                (N.lor (N.shiftl (cont_bits b2) 6) (cont_bits b3))) in
  (0xF0 <= Byte.to_N b0 < 0xF5)%N ->
  is_cont b1 = true -> is_cont b2 = true -> is_cont b3 = true ->
  (0x10000 <= c <= 0x10FFFF)%N ->
  bytes_decode (b0 :: b1 :: b2 :: b3 :: r)
  = Py.bind (bytes_decode r) (fun s => Ok (c :: s)).
Proof.
  intros c H H1 H2 H3 [Hc Hc']. remember (b1 :: b2 :: b3 :: r) as t eqn:E.
  cbn [bytes_decode].
  destruct (N.ltb_spec (Byte.to_N b0) 0x80); [lia|].
  destruct (N.ltb_spec (Byte.to_N b0) 0xC2); [lia|].
  destruct (N.ltb_spec (Byte.to_N b0) 0xE0); [lia|].
  destruct (N.ltb_spec (Byte.to_N b0) 0xF0); [lia|].
  destruct (N.ltb_spec (Byte.to_N b0) 0xF5); [|lia].
  subst t. fold c. rewrite H1, H2, H3.
  apply N.leb_le in Hc. apply N.leb_le in Hc'. now rewrite Hc, Hc'.
Qed.

(** A continuation byte [10xxxxxx] and the six bits it carries. *)
Lemma cont_byte (x : N) :
  (x < 64)%N ->
  is_cont (byte_of_N (N.lor 0x80 x)) = true
  /\ cont_bits (byte_of_N (N.lor 0x80 x)) = x.
Proof.
  intros H. unfold is_cont, cont_bits.
  rewrite (to_N_lor 0x80 x 6) by (reflexivity || lia).
  split.
  - apply andb_true_iff. split; apply N.leb_le; lia.
  - change 0x3F%N with (N.ones 6). rewrite N.land_ones.
    change (2 ^ 6)%N with 64%N. ndivmod.
Qed.

Lemma shiftr_div (c k : N) : N.shiftr c k = (c / 2 ^ k)%N.
Proof. apply N.shiftr_div_pow2. Qed.

Lemma land_63 (c : N) : N.land c 0x3F = (c mod 64)%N.
Proof. change 0x3F%N with (N.ones 6). now rewrite N.land_ones. Qed.

Lemma lor_shiftl (hi lo k : N) :
  (lo < 2 ^ k)%N -> N.lor (N.shiftl hi k) lo = (hi * 2 ^ k + lo)%N.
Proof.
  intros H. rewrite N.shiftl_mul_pow2. apply (lor_disjoint _ _ k); [|exact H].
  apply N.Div0.mod_mul.
Qed.

Lemma land_lead (m x k : N) :
  (m mod 2 ^ k = 0)%N -> (x < 2 ^ k)%N -> N.land (m + x) (N.ones k) = x.
Proof.
  intros Hm Hx. rewrite N.land_ones, N.Div0.add_mod, Hm, N.add_0_l.
  rewrite N.Div0.mod_mod. now apply N.mod_small.
Qed.

Lemma utf8_cp_decode (c : N) (r : bytes) :
  (c < 0x110000)%N -> is_surrogate c = false ->
  bytes_decode (utf8_cp c ++ r) = Py.bind (bytes_decode r) (fun s => Ok (c :: s)).
Proof.
  intros Hc Hs. unfold utf8_cp.
  destruct (N.ltb_spec c 0x80) as [H1|H1].
  - cbn [app]. rewrite decode_step1; rewrite to_N_byte_of_N by lia; [reflexivity|lia].
  - destruct (N.ltb_spec c 0x800) as [H2|H2]; [|destruct (N.ltb_spec c 0x10000) as [H3|H3]].
    + cbn [app]. rewrite !shiftr_div, !land_63. change (2 ^ 6)%N with 64%N.
      assert (Hd : (c / 64 < 32)%N) by ndivmod.
      assert (Hm : (c mod 64 < 64)%N) by ndivmod.
      destruct (cont_byte (c mod 64) Hm) as [C1 B1].
      assert (L : Byte.to_N (byte_of_N (N.lor 0xC0 (c / 64))) = (0xC0 + c / 64)%N)
        by (apply (to_N_lor _ _ 5); (reflexivity || lia)).
      rewrite decode_step2; [| rewrite L; ndivmod | exact C1].
      rewrite B1, L. change 0x1F%N with (N.ones 5).
      rewrite (land_lead 0xC0 (c / 64) 5) by (reflexivity || lia).
      rewrite (lor_shiftl (c / 64) (c mod 64) 6) by lia.
      replace (c / 64 * 2 ^ 6 + c mod 64)%N with c by (change (2 ^ 6)%N with 64%N; ndivmod).
      reflexivity.
    + cbn [app]. rewrite !shiftr_div, !land_63.
      change (2 ^ 6)%N with 64%N. change (2 ^ 12)%N with 4096%N.
      assert (Hd : (c / 4096 < 16)%N) by ndivmod.
      assert (Hm1 : ((c / 64) mod 64 < 64)%N) by ndivmod.
      assert (Hm2 : (c mod 64 < 64)%N) by ndivmod.
      destruct (cont_byte _ Hm1) as [C1 B1]. destruct (cont_byte _ Hm2) as [C2 B2].
      assert (L : Byte.to_N (byte_of_N (N.lor 0xE0 (c / 4096))) = (0xE0 + c / 4096)%N)
        by (apply (to_N_lor _ _ 4); (reflexivity || lia)).
      assert (E : N.lor (N.shiftl (N.land (Byte.to_N (byte_of_N (N.lor 0xE0 (c / 4096)))) 0x0F) 12)
                    (N.lor (N.shiftl (cont_bits (byte_of_N (N.lor 0x80 ((c / 64) mod 64)))) 6)
                       (cont_bits (byte_of_N (N.lor 0x80 (c mod 64))))) = c).
      { rewrite B1, B2, L. change 0x0F%N with (N.ones 4).
        rewrite (land_lead 0xE0 (c / 4096) 4) by (reflexivity || lia).
        rewrite (lor_shiftl ((c / 64) mod 64) (c mod 64) 6) by lia.
        rewrite lor_shiftl by (change (2 ^ 6)%N with 64%N; change (2 ^ 12)%N with 4096%N; ndivmod).
        change (2 ^ 6)%N with 64%N; change (2 ^ 12)%N with 4096%N. ndivmod. }
      rewrite decode_step3; rewrite ?E; try assumption; try lia; [reflexivity|].
      rewrite L. ndivmod.
    + cbn [app]. rewrite !shiftr_div, !land_63.
      change (2 ^ 6)%N with 64%N. change (2 ^ 12)%N with 4096%N.
      change (2 ^ 18)%N with 262144%N.
      assert (Hd : (c / 262144 < 8)%N) by ndivmod.
      assert (Hm1 : ((c / 4096) mod 64 < 64)%N) by ndivmod.
      assert (Hm2 : ((c / 64) mod 64 < 64)%N) by ndivmod.
      assert (Hm3 : (c mod 64 < 64)%N) by ndivmod.
      destruct (cont_byte _ Hm1) as [C1 B1]. destruct (cont_byte _ Hm2) as [C2 B2].
      destruct (cont_byte _ Hm3) as [C3 B3].
      assert (L : Byte.to_N (byte_of_N (N.lor 0xF0 (c / 262144))) = (0xF0 + c / 262144)%N)
        by (apply (to_N_lor _ _ 3); (reflexivity || lia)).
      assert (E : N.lor (N.shiftl (N.land (Byte.to_N (byte_of_N (N.lor 0xF0 (c / 262144)))) 0x07) 18)
                    (N.lor (N.shiftl (cont_bits (byte_of_N (N.lor 0x80 ((c / 4096) mod 64)))) 12)
                      (N.lor (N.shiftl (cont_bits (byte_of_N (N.lor 0x80 ((c / 64) mod 64)))) 6)
                         (cont_bits (byte_of_N (N.lor 0x80 (c mod 64)))))) = c).
      { rewrite B1, B2, B3, L. change 0x07%N with (N.ones 3).
        rewrite (land_lead 0xF0 (c / 262144) 3) by (reflexivity || lia).
        rewrite (lor_shiftl ((c / 64) mod 64) (c mod 64) 6) by lia.
        rewrite (lor_shiftl ((c / 4096) mod 64) _ 12)
          by (change (2 ^ 6)%N with 64%N; change (2 ^ 12)%N with 4096%N; ndivmod).
        rewrite lor_shiftl
          by (change (2 ^ 6)%N with 64%N; change (2 ^ 12)%N with 4096%N;
              change (2 ^ 18)%N with 262144%N; ndivmod).
        change (2 ^ 6)%N with 64%N; change (2 ^ 12)%N with 4096%N.
        change (2 ^ 18)%N with 262144%N. ndivmod. }
      rewrite decode_step4; rewrite ?E; try assumption; try lia; [reflexivity|].
      rewrite L. ndivmod.
Qed.

Lemma utf8_bytes_decode (s : pystr) :
  is_text s = true -> encodable s = true -> bytes_decode (utf8_bytes s) = Ok s.
Proof.
  unfold is_text, encodable, utf8_bytes. intros Ht He. apply negb_true_iff in He.
  induction s as [|c s IH]; [reflexivity|].
  cbn [forallb existsb flat_map] in *.
  apply andb_prop in Ht as [Hc Ht]. apply orb_false_iff in He as [Hs He].
  apply N.ltb_lt in Hc. rewrite (utf8_cp_decode c _ Hc Hs), (IH Ht He). reflexivity.
Qed.

(** Hexadecimal text of the UTF-8 bytes, read back. *)
Lemma hex_decode_hex_text (s : pystr) :
  is_text s = true -> encodable s = true ->
  hex_decode (bytes_hex (utf8_bytes s)) = Ok s.
Proof.
  intros Ht He. unfold hex_decode. rewrite bytes_fromhex_hex. cbn [Py.bind].
  now apply utf8_bytes_decode.
Qed.

Lemma is_ascii_text (s : pystr) : is_ascii s -> is_text s = true.
Proof.
  intros H. apply forallb_forall. intros c Hc. apply N.ltb_lt.
  unfold is_ascii in H. rewrite Forall_forall in H. specialize (H c Hc). lia.
Qed.

(** ** When the token metadata cannot be built *)

Lemma encode_hex_surrogate (s : pystr) :
  encodable s = false -> encode_hex s = Raise UnicodeEncodeError.
Proof. intros H. unfold encode_hex. now rewrite (str_encode_surrogate s H). Qed.

Lemma token_metadata_item_surrogate (k : Z) (v : TokenType) :
  token_encodable v = false ->
  Deploy.token_metadata_item k v = Raise UnicodeEncodeError.
Proof.
  unfold token_encodable, Deploy.token_metadata_item. intros H.
  rewrite (encode_hex_encodable _ (is_ascii_encodable _ (int_str_ascii (decimals v)))).
  cbn [Py.bind].
  destruct (encodable (eth_contract v)) eqn:Hc;
    [rewrite (encode_hex_encodable _ Hc) | now rewrite (encode_hex_surrogate _ Hc)].
  cbn [Py.bind].
  destruct (encodable (eth_symbol v)) eqn:He;
    [rewrite (encode_hex_encodable _ He) | now rewrite (encode_hex_surrogate _ He)].
  cbn [Py.bind].
  destruct (encodable (name v)) eqn:Hn;
    [rewrite (encode_hex_encodable _ Hn) | now rewrite (encode_hex_surrogate _ Hn)].
  cbn [Py.bind].
  destruct (encodable (symbol v)) eqn:Hs;
    [discriminate H | now rewrite (encode_hex_surrogate _ Hs)].
Qed.

Lemma fa2_token_metadata_surrogate (tokens : list TokenType) :
  forallb token_encodable tokens = false ->
  Deploy.fa2_token_metadata tokens = Raise UnicodeEncodeError.
Proof.
  intros H. unfold Deploy.fa2_token_metadata.
  assert (E : mapM (fun kv => Deploy.token_metadata_item (fst kv) (snd kv))
                (enumerate tokens) = Raise UnicodeEncodeError).
  { rewrite enumerate_from_0. generalize 0%nat as a.
    induction tokens as [|v l IH]; intros a; [discriminate H|].
    rewrite enumerate_from_cons. cbn [mapM fst snd].
    cbn [forallb] in H. destruct (token_encodable v) eqn:Hv.
    - rewrite (token_metadata_item_encodable _ _ Hv). cbn [Py.bind].
      change (Py.bind (mapM (fun kv => Deploy.token_metadata_item (fst kv) (snd kv))
                         (enumerate_from (S a) l))
                (fun ys => Ok ((PyInt (Z.of_nat a), fa2_entry (Z.of_nat a) v) :: ys))
              = Raise UnicodeEncodeError).
      now rewrite (IH H).
    - now rewrite (token_metadata_item_surrogate _ _ Hv). }
  now rewrite E.
Qed.


Lemma fa2_entry_lookup (tokens : list TokenType) (i : nat) (v : TokenType) :
  nth_error tokens i = Some v ->
  dict_get (map (fun kv => (PyInt (fst kv), fa2_entry (fst kv) (snd kv)))
              (enumerate tokens)) (PyInt (Z.of_nat i))
  = Some (fa2_entry (Z.of_nat i) v).
Proof.
  intros Hi.
  pose proof (enumerate_from_nth 0 tokens i v Hi) as Hn. simpl in Hn.
  rewrite <- enumerate_from_0 in Hn.
  rewrite <- (map_map (fun kv => (fst kv, fa2_entry (fst kv) (snd kv))) (keyed PyInt)).
  apply (dict_get_nth _ PyInt key_eqb_PyInt _ i).
  - unfold keys. rewrite map_map. simpl.
    rewrite enumerate_from_0, enumerate_from_fst. apply NoDup_positions.
  - now rewrite nth_error_map, Hn.
Qed.

Lemma decoded_field_entry (k : Z) (v : TokenType) :
  token_text v = true -> token_encodable v = true ->
  decoded_field (fa2_entry k v) "decimals" = Some (int_str (decimals v))
  /\ decoded_field (fa2_entry k v) "eth_contract" = Some (eth_contract v)
  /\ decoded_field (fa2_entry k v) "eth_symbol" = Some (eth_symbol v)
  /\ decoded_field (fa2_entry k v) "name" = Some (name v)
  /\ decoded_field (fa2_entry k v) "symbol" = Some (symbol v).
Proof.
  unfold token_text, token_encodable. intros Ht He.
  apply andb_prop in Ht as [Ht Ts]. apply andb_prop in Ht as [Ht Tn].
  apply andb_prop in Ht as [Tc Te].
  apply andb_prop in He as [He Es]. apply andb_prop in He as [He En].
  apply andb_prop in He as [Ec Ee].
  pose proof (int_str_ascii (decimals v)) as Hd.
  unfold decoded_field, fa2_entry, hex_text.
  repeat split.
  - change (match hex_decode (bytes_hex (utf8_bytes (int_str (decimals v)))) with
            | Ok s => Some s | Raise _ => None end = Some (int_str (decimals v))).
    now rewrite (hex_decode_hex_text _ (is_ascii_text _ Hd) (is_ascii_encodable _ Hd)).
  - change (match hex_decode (bytes_hex (utf8_bytes (eth_contract v))) with
            | Ok s => Some s | Raise _ => None end = Some (eth_contract v)).
    now rewrite (hex_decode_hex_text _ Tc Ec).
  - change (match hex_decode (bytes_hex (utf8_bytes (eth_symbol v))) with
            | Ok s => Some s | Raise _ => None end = Some (eth_symbol v)).
    now rewrite (hex_decode_hex_text _ Te Ee).
  - change (match hex_decode (bytes_hex (utf8_bytes (name v))) with
            | Ok s => Some s | Raise _ => None end = Some (name v)).
    now rewrite (hex_decode_hex_text _ Tn En).
  - change (match hex_decode (bytes_hex (utf8_bytes (symbol v))) with
            | Ok s => Some s | Raise _ => None end = Some (symbol v)).
    now rewrite (hex_decode_hex_text _ Ts Es).
Qed.

(** X6.  Every field that [Deploy.fa2] stores for a token can be read back.
    When [token_metadata] is built, the entry at each position [i] holds
    under [extras] the hexadecimal text of the UTF-8 bytes of the decimal
    digits of [decimals] and of [eth_contract], [eth_symbol], [name] and
    [symbol]: [bytes.fromhex(...).decode()] gives each of them back. *)
Theorem token_fields_decode
  (tokens : list TokenType) (token_metadata : pyval) (i : nat) (v : TokenType) :
  Deploy.fa2_token_metadata tokens = Ok token_metadata ->
  nth_error tokens i = Some v ->
  token_text v = true ->
  exists entry,
    getitem token_metadata (PyInt (Z.of_nat i)) = Some entry
    /\ decoded_field entry "decimals" = Some (int_str (decimals v))
    /\ decoded_field entry "eth_contract" = Some (eth_contract v)
    /\ decoded_field entry "eth_symbol" = Some (eth_symbol v)
    /\ decoded_field entry "name" = Some (name v)
    /\ decoded_field entry "symbol" = Some (symbol v).
Proof.
  intros H Hi Ht.
  destruct (forallb token_encodable tokens) eqn:He;
    [|rewrite (fa2_token_metadata_surrogate _ He) in H; discriminate H].
  rewrite (fa2_token_metadata_encodable _ He) in H. apply Ok_inj in H. subst token_metadata.
  exists (fa2_entry (Z.of_nat i) v). split.
  - exact (fa2_entry_lookup tokens i v Hi).
  - apply decoded_field_entry; [exact Ht|].
    rewrite forallb_forall in He. apply He. eapply nth_error_In; exact Hi.
Qed.

(** ** Every run of the deployment *)

Section Runs.

Variable C : Collaborators.

Local Arguments _metadata_encode : simpl never.
Local Arguments Deploy.quorum_storage : simpl never.
Local Arguments Deploy.minter_initial_storage : simpl never.
Local Arguments Deploy.fa2_initial_storage : simpl never.
Local Arguments lit : simpl never.
Local Arguments app : simpl never.

Ltac collaborator_step :=
  match goal with
  | |- context [views_compile C ?a ?b ?c ?d ?w] =>
      destruct (views_compile C a b c d w) as [[?|?] ?] eqn:?;
      cbn [Deploy.world Deploy.sent Deploy.stdout]
  | |- context [originate C ?a ?b ?w] =>
      destruct (originate C a b w) as [[?|?] ?] eqn:?;
      cbn [Deploy.world Deploy.sent Deploy.stdout]
  | |- context [storage_encode C ?a ?b] =>
      destruct (storage_encode C a b) eqn:?; cbv beta iota
  | |- context [Deploy.fa2_initial_storage C ?a ?b ?c ?d ?e] =>
      destruct (Deploy.fa2_initial_storage C a b c d e) eqn:?; cbv beta iota
  | |- context [Deploy.minter_initial_storage C ?a ?b ?c] =>
      destruct (Deploy.minter_initial_storage C a b c) eqn:?; cbv beta iota
  end.

Ltac unfold_deployment :=
  unfold Deploy.fa2, Deploy._deploy_minter, Deploy._deploy_quorum,
    Deploy.bindM, Deploy.compile_view, Deploy.print, Deploy.lift,
    Deploy.utils_originate, Deploy._print_contract, Deploy.ret.

Ltac close_deployment :=
  first [ apply not_sent; cbn [Deploy.sent Deploy.stdout]; reflexivity
        | eapply sent_and_failed; cbn [Deploy.sent Deploy.stdout]; reflexivity
        | eapply sent_and_originated; cbn [Deploy.sent Deploy.stdout];
          [reflexivity | unfold success_message; rewrite <- app_assoc; reflexivity] ].

Lemma fa2_deployment (tokens : list TokenType) (st : Deploy.state C) :
  deployment C (contract_code C FA2) (lit "Deploying fa2") st (Deploy.fa2 C tokens st).
Proof.
  unfold_deployment. cbv beta iota. cbn [Deploy.world Deploy.sent Deploy.stdout].
  repeat collaborator_step; close_deployment.
Qed.

Lemma deploy_quorum_deployment (signers : pyval) (threshold : Z) (st : Deploy.state C) :
  deployment C (contract_code C Quorum) (lit "Deploying quorum contract") st
    (Deploy._deploy_quorum C signers threshold st).
Proof.
  destruct quorum_metadata_encoded as [metadata E].
  unfold_deployment. rewrite E. cbv beta iota.
  cbn [Deploy.world Deploy.sent Deploy.stdout].
  repeat collaborator_step; close_deployment.
Qed.

Lemma deploy_minter_deployment
  (quorum : pystr) (tokens : list TokenType) (fa2_address : pystr) (st : Deploy.state C) :
  deployment C (contract_code C Minter) (lit "Deploying minter contract") st
    (Deploy._deploy_minter C quorum tokens fa2_address st).
Proof.
  unfold_deployment. cbv beta iota. cbn [Deploy.world Deploy.sent Deploy.stdout].
  repeat collaborator_step; close_deployment.
Qed.

Lemma run_run_outcome
  (signers : pyval) (tokens : list TokenType) (threshold : Z) (st : Deploy.state C) :
  run_outcome C st (Deploy.run C signers tokens threshold st).
Proof.
  unfold Deploy.run, Deploy.bindM.
  pose proof (fa2_deployment tokens st) as H1.
  destruct (Deploy.fa2 C tokens st) as [[fa2_address|e] st1];
    [|now apply fa2_failed].
  pose proof (deploy_quorum_deployment signers threshold st1) as H2.
  destruct (Deploy._deploy_quorum C signers threshold st1) as [[quorum|e] st2];
    [|now apply (quorum_failed C st fa2_address e st1)].
  pose proof (deploy_minter_deployment quorum tokens fa2_address st2) as H3.
  destruct (Deploy._deploy_minter C quorum tokens fa2_address st2) as [[minter|e] st3];
    [|now apply (minter_failed C st fa2_address quorum e st1 st2)].
  unfold Deploy._set_fa2_admin, Deploy.raise.
  now apply (set_admin_missing C st fa2_address quorum minter st1 st2).
Qed.

Ltac run_cases signers tokens threshold st :=
  let H := fresh "H" in
  pose proof (run_run_outcome signers tokens threshold st) as H;
  destruct (Deploy.run C signers tokens threshold st) as [? ?];
  inversion H; subst; clear H;
  repeat match goal with
         | D : deployment _ _ _ _ _ |- _ => inversion D; clear D; subst
         end;
  cbn [fst snd].

Ltac trace_eq :=
  repeat match goal with
         | H : Deploy.sent ?s = _ |- context [Deploy.sent ?s] => rewrite H
         | H : Deploy.stdout ?s = _ |- context [Deploy.stdout ?s] => rewrite H
         end;
  rewrite <- ?app_assoc;
  first [ reflexivity | symmetry; apply app_nil_r ].

Lemma success_message_is_success (addr : pystr) :
  is_success_message (success_message addr) = true.
Proof. reflexivity. Qed.

Lemma success_message_not_summary (addr : pystr) :
  is_summary (success_message addr) = false.
Proof. reflexivity. Qed.

(** X12.  [run] never returns: whatever the client does, it ends with an
    exception.  Everything it has sent by then is an origination (the
    admin confirmation of [_confirm_admin] is never sent), and the summary
    of line 47 is never printed. *)
Theorem run_never_completes
  (signers : pyval) (tokens : list TokenType) (threshold : Z) (st : Deploy.state C) :
  let final := Deploy.run C signers tokens threshold st in
  (exists e, fst final = Raise e)
  /\ exists evs lines,
      Deploy.sent (snd final) = Deploy.sent st ++ evs
      /\ Deploy.stdout (snd final) = Deploy.stdout st ++ lines
      /\ Forall (fun ev => originated_code ev <> None) evs
      /\ existsb is_summary lines = false.
Proof.
  cbv zeta. run_cases signers tokens threshold st.
  all: split; [eexists; reflexivity|].
  all: eexists; eexists; split; [trace_eq|]; split; [trace_eq|].
  all: split; [repeat constructor; discriminate | reflexivity].
Qed.

(** X13.  In every run the operations sent are originations of the FA2,
    quorum and minter code, in this order and each at most once; every
    one but the last succeeded, and when one failed its exception is what
    [run] raises. *)
Theorem run_originates_in_order
  (signers : pyval) (tokens : list TokenType) (threshold : Z) (st : Deploy.state C) :
  let final := Deploy.run C signers tokens threshold st in
  exists evs,
    Deploy.sent (snd final) = Deploy.sent st ++ evs
    /\ map originated_code evs = firstn (List.length evs) (deployment_order C)
    /\ forallb succeeded (removelast evs) = true
    /\ forall ev e, In ev evs -> failure ev = Some e -> fst final = Raise e.
Proof.
  cbv zeta. run_cases signers tokens threshold st.
  all: eexists; split; [trace_eq|].
  all: split; [reflexivity|]; split; [reflexivity|].
  all: cbn [app]; intros ev e' Hin Hf.
  all: repeat (destruct Hin as [<-|Hin]; [try discriminate Hf|]); try contradiction.
  all: try (injection Hf as <-; reflexivity).
Qed.

(** X14.  What [run] prints starts with [Deploying fa2], and the success
    messages of [_print_contract] among the printed lines are exactly
    those of the originations that succeeded, in the order they were
    sent. *)
Theorem run_prints_success_per_origination
  (signers : pyval) (tokens : list TokenType) (threshold : Z) (st : Deploy.state C) :
  let final := Deploy.run C signers tokens threshold st in
  exists evs lines,
    Deploy.sent (snd final) = Deploy.sent st ++ evs
    /\ Deploy.stdout (snd final) = Deploy.stdout st ++ lines
    /\ filter is_success_message lines = map success_message (addresses evs)
    /\ hd_error lines = Some (lit "Deploying fa2").
Proof.
  cbv zeta. run_cases signers tokens threshold st.
  all: eexists; eexists; split; [trace_eq|]; split; [trace_eq|].
  all: split; reflexivity.
Qed.

Lemma fa2_initial_storage_surrogate
  (get_balance total_supply is_operator token_metadata : pyval)
  (tokens : list TokenType) (record : pyval) :
  forallb token_encodable tokens = false ->
  Deploy.fa2_initial_storage C get_balance total_supply is_operator token_metadata
    tokens <> Ok record.
Proof.
  intros H. unfold Deploy.fa2_initial_storage.
  destruct (_metadata_encode _); cbn [Py.bind]; [|discriminate].
  rewrite (fa2_token_metadata_surrogate _ H). discriminate.
Qed.

Lemma fa2_surrogate (tokens : list TokenType) (st : Deploy.state C) :
  forallb token_encodable tokens = false ->
  exists e st',
    Deploy.fa2 C tokens st = (Raise e, st')
    /\ Deploy.sent st' = Deploy.sent st
    /\ Deploy.stdout st' = Deploy.stdout st ++ [lit "Deploying fa2"].
Proof.
  intros H. unfold_deployment. cbv beta iota.
  cbn [Deploy.world Deploy.sent Deploy.stdout].
  repeat collaborator_step;
    try (exfalso; eapply fa2_initial_storage_surrogate; eassumption);
    eexists; eexists; split; try reflexivity; split; reflexivity.
Qed.

(** X9.  A token whose [eth_contract], [eth_symbol], [name] or [symbol]
    holds a surrogate stops [run] in [Deploy.fa2] before anything is
    originated: [run] raises, the network has received nothing, and the
    only line printed is [Deploying fa2]. *)
Theorem surrogate_token_sends_nothing
  (signers : pyval) (tokens : list TokenType) (threshold : Z) (st : Deploy.state C) :
  forallb token_encodable tokens = false ->
  exists e st',
    Deploy.run C signers tokens threshold st = (Raise e, st')
    /\ Deploy.sent st' = Deploy.sent st
    /\ Deploy.stdout st' = Deploy.stdout st ++ [lit "Deploying fa2"].
Proof.
  intros H. destruct (fa2_surrogate tokens st H) as (e & st' & E & Hs & Hp).
  exists e, st'. unfold Deploy.run, Deploy.bindM. rewrite E. auto.
Qed.

End Runs.

(** ** The encoded metadata, read back *)

Lemma hexdigit_lower_hex (n : N) : (n < 16)%N -> is_lower_hex (hexdigit n) = true.
Proof.
  intros H. unfold is_lower_hex, hexdigit.
  destruct (N.ltb_spec n 10).
  - apply orb_true_iff. left. apply andb_true_iff. split; apply N.leb_le; lia.
  - apply orb_true_iff. right. apply andb_true_iff. split; apply N.leb_le; lia.
Qed.

Lemma bytes_hex_lower (b : bytes) : forallb is_lower_hex (bytes_hex b) = true.
Proof.
  induction b as [|x b IH]; [reflexivity|].
  unfold bytes_hex in *. cbn [flat_map app forallb]. rewrite IH.
  pose proof (Byte.to_N_bounded x) as Hx.
  rewrite !hexdigit_lower_hex; [reflexivity| apply mod16_lt |].
  apply N.Div0.div_lt_upper_bound. lia.
Qed.

Lemma bytes_hex_length (b : bytes) :
  List.length (bytes_hex b) = (2 * List.length b)%nat.
Proof.
  induction b as [|x b IH]; [reflexivity|].
  unfold bytes_hex in *. cbn [flat_map app List.length]. rewrite IH. lia.
Qed.

Lemma hex_decode_ascii (text : pystr) :
  is_ascii text -> hex_decode (bytes_hex (map byte_of_N text)) = Ok text.
Proof.
  intros H. unfold hex_decode. rewrite bytes_fromhex_hex. cbn [Py.bind].
  now apply bytes_decode_ascii.
Qed.

(** X1.  Whatever document [_metadata_encode] accepts, both entries of its
    result are lower-case hexadecimal text that [bytes.fromhex(...).decode()]
    reads back: the [""] entry as [tezos-storage:content], the ["content"]
    entry as the text of [json.dumps(D, indent=2)], which is pure ASCII, so
    that the entry has exactly two digits per character of that text. *)
Theorem metadata_entries_are_hex (D meta : pyval) :
  _metadata_encode D = Ok meta ->
  exists text uri content,
    Json.dumps 2 D = Ok text
    /\ meta = PyDict [(str_ "", PyStr uri); (str_ "content", PyStr content)]
    /\ hex_decode uri = Ok (lit "tezos-storage:content")
    /\ hex_decode content = Ok text
    /\ is_ascii text
    /\ List.length content = (2 * List.length text)%nat
    /\ forallb is_lower_hex uri = true
    /\ forallb is_lower_hex content = true.
Proof.
  intros H. pose proof (metadata_encode_dumps D) as HM.
  destruct (Json.dumps 2 D) as [text|e] eqn:Ht; [|rewrite HM in H; discriminate H].
  rewrite HM in H. apply Ok_inj in H. subst meta.
  pose proof (iterencode_ascii 2 D 0 _ Ht) as Ha.
  exists text, (lit "74657a6f732d73746f726167653a636f6e74656e74"),
    (bytes_hex (map byte_of_N text)).
  split; [reflexivity|]. split; [reflexivity|]. split; [vm_compute; reflexivity|].
  split; [now apply hex_decode_ascii|]. split; [exact Ha|].
  split; [now rewrite bytes_hex_length, length_map|].
  split; [vm_compute; reflexivity | apply bytes_hex_lower].
Qed.












(** ** The errors of the FA2 storage builder *)




(** ** The items of the minter's token mapping *)

Lemma NoDup_map_PyStr (l : list pystr) : NoDup l -> NoDup (map PyStr l).
Proof.
  induction 1 as [|x l Hx _ IH]; [constructor|].
  cbn [map]. constructor; [|exact IH].
  intros Hin. apply in_map_iff in Hin as (y & E & Hy). injection E as ->. contradiction.
Qed.

(** X10.  The [tokens] mapping of the minter (line 112) has one item for each
    distinct ethContract-without-its-first-two-characters of the list, and
    no other: its keys are pairwise different, it never has more items
    than the list has specs and has as many exactly when the stripped
    addresses are pairwise different; every item holds the FA2 address and
    the position of the last spec with that stripped address. *)
Theorem minter_tokens_items (tokens : list TokenType) (fa2_contract : pystr) :
  exists entries,
    Deploy.minter_tokens tokens fa2_contract = PyDict entries
    /\ NoDup (map fst entries)
    /\ (forall key, In key (map fst entries)
                    <-> exists v, In v tokens
                                  /\ key = PyStr (skipn 2 (eth_contract v)))
    /\ (List.length entries <= List.length tokens)%nat
    /\ (List.length entries = List.length tokens
        <-> NoDup (map (fun v => skipn 2 (eth_contract v)) tokens))
    /\ forall key value,
        In (key, value) entries ->
        exists j z,
          nth_error tokens j = Some z
          /\ key = PyStr (skipn 2 (eth_contract z))
          /\ value = PyList [PyStr fa2_contract; PyInt (Z.of_nat j)]
          /\ forall k z', (j < k)%nat -> nth_error tokens k = Some z' ->
                          skipn 2 (eth_contract z') <> skipn 2 (eth_contract z).
Proof.
  destruct (minter_tokens_last tokens fa2_contract) as (d & E & Hnd & Hkeys & Hlast).
  exists (map (keyed PyStr) d). split; [exact E|].
  assert (Hfst : map fst (map (keyed PyStr) d) = map PyStr (keys d)).
  { unfold keys. rewrite !map_map. reflexivity. }
  assert (Hincl : incl (keys d) (map token_key tokens)).
  { intros k Hk. apply Hkeys in Hk as (i & v & Hi & <-).
    apply in_map. eapply nth_error_In; exact Hi. }
  assert (Hincl' : incl (map token_key tokens) (keys d)).
  { intros k Hk. apply in_map_iff in Hk as (v & <- & Hv).
    apply In_nth_error in Hv as [i Hi]. apply Hkeys. eauto. }
  assert (Hlen : List.length (map (keyed PyStr) d) = List.length (keys d)).
  { unfold keys. now rewrite !length_map. }
  split; [rewrite Hfst; now apply NoDup_map_PyStr|].
  split.
  { intros key. rewrite Hfst. split.
    - intros Hin. apply in_map_iff in Hin as (k & <- & Hk).
      apply Hkeys in Hk as (i & v & Hi & <-).
      exists v. split; [eapply nth_error_In; exact Hi | reflexivity].
    - intros (v & Hv & ->). apply in_map. apply Hincl'.
      apply (in_map token_key) in Hv. exact Hv. }
  split.
  { rewrite Hlen, <- (length_map token_key tokens).
    now apply NoDup_incl_length. }
  split.
  { rewrite Hlen, <- (length_map token_key tokens).
    change (map (fun v => skipn 2 (eth_contract v)) tokens) with (map token_key tokens).
    split.
    - intros Hl. apply (NoDup_incl_NoDup Hnd); [lia | exact Hincl].
    - intros Hn. apply Nat.le_antisymm; now apply NoDup_incl_length. }
  intros key value Hin. apply in_map_iff in Hin as ([k v] & Ekv & Hin).
  unfold keyed in Ekv. cbn [fst snd] in Ekv. injection Ekv as <- <-.
  assert (Hk : In k (keys d)) by (apply (in_map fst) in Hin; exact Hin).
  apply Hkeys in Hk as (i & x & Hi & Hx).
  destruct (last_position (fun z => key_eqb (PyStr (token_key z)) (PyStr k)) tokens i x Hi)
    as (j & z & _ & Hj & Hz & Hafter).
  { apply key_eqb_PyStr. exact Hx. }
  apply key_eqb_PyStr in Hz.
  exists j, z. split; [exact Hj|]. split; [now rewrite <- Hz|].
  assert (Hnot : forall n z', (j < n)%nat -> nth_error tokens n = Some z' ->
                              token_key z' <> token_key z).
  { intros n z' Hn Hz' Heq. specialize (Hafter n z' Hn Hz').
    rewrite Hz in Heq. apply key_eqb_PyStr in Heq. congruence. }
  split; [|exact Hnot].
  specialize (Hlast j z Hj Hnot). rewrite Hz in Hlast.
  apply In_nth_error in Hin as [n Hn].
  pose proof (dict_get_nth _ PyStr key_eqb_PyStr d n k v Hnd Hn) as Hget.
  congruence.
Qed.

(** ** src/token.py *)

Section TokenMethods.

Variable P : PyTezos.

Local Arguments lit : simpl never.
Local Arguments app : simpl never.
Local Arguments Token.initial_storage : simpl never.
Local Arguments Z.mul : simpl never.
Local Arguments Z.pow : simpl never.

Ltac unfold_token :=
  unfold Token.originate, Token.mint, Token.bindM, Token.on_net, Token.lift,
    Token.print, Token.opg_inject, Token.entrypoint_call_inject, Token.ret.

Ltac token_step :=
  match goal with
  | |- context [from_file P ?n] =>
      destruct (from_file P n) as [[?|?] ?] eqn:?
  | |- context [encode_storage P ?a ?r] =>
      destruct (encode_storage P a r) eqn:?
  | |- context [sign_origination P ?a ?s ?n] =>
      destruct (sign_origination P a s n) as [[?|?] ?] eqn:?
  | |- context [group_result P ?g ?n] =>
      destruct (group_result P g n) as [[[|? ?]|?] ?] eqn:?
  | |- context [originated_contracts P ?r] =>
      destruct (originated_contracts P r) as [[|? ?]|?] eqn:?
  | |- context [inject P ?g ?n] =>
      destruct (inject P g n) as [[[]|?] ?] eqn:?
  | |- context [contract_at P ?c ?n] =>
      destruct (contract_at P c n) as [[?|?] ?] eqn:?
  | |- context [mint_tokens P ?c] =>
      destruct (mint_tokens P c) eqn:?
  | |- context [call_inject P ?e ?p ?n] =>
      destruct (call_inject P e p n) as [[?|?] ?] eqn:?
  end; cbn [Token.net Token.sent Token.stdout first_item fst snd].

(** X15.  [Token.originate] hands at most one operation group to the node.
    It prints its success message exactly when the injection returned;
    when it raises it has printed nothing, and has injected nothing unless
    the injection itself is what failed. *)
Theorem token_originate_outcome (st : Token.state P) :
  let final := Token.originate P st in
  match fst final with
  | Ok _ =>
      exists group contract_id,
        Token.sent (snd final) = Token.sent st ++ [Token.Injected_group group (Ok tt)]
        /\ Token.stdout (snd final) = Token.stdout st ++ [success_message contract_id]
  | Raise e =>
      Token.stdout (snd final) = Token.stdout st
      /\ (Token.sent (snd final) = Token.sent st
          \/ exists group,
              Token.sent (snd final)
              = Token.sent st ++ [Token.Injected_group group (Raise e)])
  end.
Proof.
  cbv zeta. unfold_token. cbv beta iota. cbn [Token.net Token.sent Token.stdout].
  repeat token_step; cbv beta iota; cbn [Token.net Token.sent Token.stdout fst snd];
    eauto.
  eexists; eexists; split; reflexivity.
Qed.

(** X16.  [Token.originate] reads the contract id from the signed group's
    result before it injects.  When that result is empty, or its first
    element lists no originated contract, the method raises [IndexError]:
    the group was signed but is not injected, and nothing is printed. *)
Theorem token_originate_needs_contract_id
  (st : Token.state P) (app : App P) (storage : Storage P) (opg : Group P)
  (results : list (Result P)) (n1 n2 n3 : Net P) :
  from_file P (Token.net st) = (Ok app, n1) ->
  encode_storage P app (Token.initial_storage P) = Ok storage ->
  sign_origination P app storage n1 = (Ok opg, n2) ->
  group_result P opg n2 = (Ok results, n3) ->
  match results with
  | [] => True
  | first :: _ => originated_contracts P first = Ok []
  end ->
  Token.originate P st
  = (Raise index_error,
     {| Token.net := n3; Token.sent := Token.sent st; Token.stdout := Token.stdout st |}).
Proof.
  intros H1 H2 H3 H4 H5. unfold_token. cbv beta iota.
  rewrite H1. cbn [Token.net Token.sent Token.stdout]. rewrite H2, H3.
  cbn [Token.net Token.sent Token.stdout]. rewrite H4.
  cbn [Token.net Token.sent Token.stdout].
  destruct results as [|first rest]; [reflexivity|].
  cbn [first_item]. rewrite H5. reflexivity.
Qed.


End TokenMethods.

(** ** Positions outside the list, addresses of two characters or fewer *)

Lemma positions_In (k : Z) (n : nat) :
  In k (map Z.of_nat (seq 0 n)) <-> in_range k n = true.
Proof.
  unfold in_range. rewrite in_map_iff, andb_true_iff, Z.leb_le, Z.ltb_lt. split.
  - intros (i & <- & Hi). apply in_seq in Hi. lia.
  - intros [H0 Hn]. exists (Z.to_nat k). split; [lia|]. apply in_seq. lia.
Qed.

Lemma positions_lookup (f : Z -> TokenType -> pyval) (tokens : list TokenType) (k : Z) :
  dict_get (map (fun kv => (PyInt (fst kv), f (fst kv) (snd kv))) (enumerate tokens))
    (PyInt k)
  = if in_range k (List.length tokens)
    then option_map (f k) (nth_error tokens (Z.to_nat k))
    else None.
Proof.
  rewrite <- (map_map (fun kv => (fst kv, f (fst kv) (snd kv))) (keyed PyInt)).
  assert (Hkeys : keys (map (fun kv : Z * TokenType => (fst kv, f (fst kv) (snd kv)))
                          (enumerate tokens))
                  = map Z.of_nat (seq 0 (List.length tokens))).
  { unfold keys. rewrite map_map. cbn [fst].
    now rewrite enumerate_from_0, enumerate_from_fst. }
  destruct (in_range k (List.length tokens)) eqn:Hr.
  - unfold in_range in Hr. apply andb_prop in Hr as [H0 Hn].
    apply Z.leb_le in H0. apply Z.ltb_lt in Hn.
    destruct (nth_error tokens (Z.to_nat k)) as [v|] eqn:Hv;
      [|apply nth_error_None in Hv; lia].
    cbn [option_map].
    pose proof (enumerate_from_nth 0 tokens _ v Hv) as He.
    rewrite <- enumerate_from_0 in He. cbn [Nat.add] in He. rewrite Z2Nat.id in He by lia.
    apply (dict_get_nth _ PyInt key_eqb_PyInt _ (Z.to_nat k)).
    + rewrite Hkeys. apply NoDup_positions.
    + now rewrite nth_error_map, He.
  - apply (dict_get_None _ PyInt key_eqb_PyInt). rewrite Hkeys.
    rewrite positions_In. now rewrite Hr.
Qed.

(** X8.  The two per-token mappings of the FA2 storage (lines 82-91) are
    defined on the positions of the list and nowhere else: looking up an
    integer [k] gives the entry of [tokens[k]], or 0 for the supply, when
    [0 <= k < len(tokens)], and finds nothing for a negative [k] or one
    past the end. *)
Theorem fa2_mappings_defined_on_positions (tokens : list TokenType) (k : Z) :
  getitem (Deploy.fa2_supply tokens) (PyInt k)
  = (if in_range k (List.length tokens) then Some (PyInt 0) else None)
  /\ forall token_metadata,
      Deploy.fa2_token_metadata tokens = Ok token_metadata ->
      getitem token_metadata (PyInt k)
      = if in_range k (List.length tokens)
        then option_map (fa2_entry k) (nth_error tokens (Z.to_nat k))
        else None.
Proof.
  split.
  - rewrite fa2_supply_positions. unfold getitem.
    rewrite (positions_lookup (fun _ _ => PyInt 0)).
    destruct (in_range k (List.length tokens)) eqn:Hr; [|reflexivity].
    unfold in_range in Hr. apply andb_prop in Hr as [H0 Hn].
    apply Z.leb_le in H0. apply Z.ltb_lt in Hn.
    destruct (nth_error tokens (Z.to_nat k)) eqn:Hv; [reflexivity|].
    apply nth_error_None in Hv. lia.
  - intros tm H.
    destruct (forallb token_encodable tokens) eqn:He;
      [|rewrite (fa2_token_metadata_surrogate _ He) in H; discriminate H].
    rewrite (fa2_token_metadata_encodable _ He) in H. apply Ok_inj in H. subst tm.
    unfold getitem. apply (positions_lookup fa2_entry).
Qed.

(** X11.  [v["eth_contract"][2:]] never fails: an address of two characters
    or fewer gives the empty key.  When every address of a non-empty list
    is that short, the minter's [tokens] mapping has a single item, under
    the empty key, holding the position of the last spec. *)
Theorem short_addresses_share_one_item
  (tokens : list TokenType) (fa2_contract : pystr) :
  tokens <> [] ->
  Forall (fun v => (List.length (eth_contract v) <= 2)%nat) tokens ->
  Deploy.minter_tokens tokens fa2_contract
  = PyDict [(PyStr [],
             PyList [PyStr fa2_contract;
                     PyInt (Z.of_nat (List.length tokens - 1))])].
Proof.
  intros Hne Hshort.
  assert (Hkey : forall v, In v tokens -> token_key v = []).
  { intros v Hv. rewrite Forall_forall in Hshort. specialize (Hshort v Hv).
    unfold token_key. apply skipn_all2. exact Hshort. }
  destruct (minter_tokens_last tokens fa2_contract) as (d & E & Hnd & Hkeys & Hlast).
  rewrite E. f_equal.
  destruct (nth_error tokens (List.length tokens - 1)) as [z|] eqn:Hz;
    [|apply nth_error_None in Hz; destruct tokens; [contradiction | cbn in Hz; lia]].
  assert (Hget : dict_get (map (keyed PyStr) d) (PyStr [])
                 = Some (PyList [PyStr fa2_contract;
                                 PyInt (Z.of_nat (List.length tokens - 1))])).
  { rewrite <- (Hkey z (nth_error_In _ _ Hz)). apply Hlast; [exact Hz|].
    intros k z' Hk Hz'. exfalso.
    assert (k < List.length tokens)%nat by (apply nth_error_Some; congruence). lia. }
  assert (Hall : forall k, In k (keys d) -> k = []).
  { intros k Hk. apply Hkeys in Hk as (i & v & Hi & <-).
    apply Hkey. eapply nth_error_In; exact Hi. }
  destruct d as [|[k v] d]; [discriminate Hget|].
  destruct d as [|[k' v'] d].
  - cbn [keys map fst] in Hall. rewrite (Hall k (or_introl eq_refl)) in *.
    cbn [map keyed fst snd dict_get] in Hget |- *.
    rewrite (proj2 (key_eqb_PyStr [] []) eq_refl) in Hget. now injection Hget as ->.
  - exfalso. unfold keys in Hnd, Hall. cbn [map fst] in Hnd, Hall. inversion Hnd as [|? ? Hn _].
    apply Hn. left.
    rewrite (Hall k (or_introl eq_refl)), (Hall k' (or_intror (or_introl eq_refl))).
    reflexivity.
Qed.

(** ** Examples *)

Lemma token_fields_decode_witness :
  exists token_metadata entry,
    Deploy.fa2_token_metadata [weth; xi_token] = Ok token_metadata
    /\ getitem token_metadata (PyInt 1) = Some entry
    /\ decoded_field entry "name" = Some [0x39E; 0x20AC; 0x1F600]%N
    /\ decoded_field entry "decimals" = Some (lit "6").
Proof.
  pose proof (fa2_token_metadata_encodable [weth; xi_token] eq_refl) as E.
  destruct (token_fields_decode [weth; xi_token] _ 1 xi_token E eq_refl eq_refl)
    as (entry & Hget & Hd & _ & _ & Hn & _).
  eexists. exists entry. split; [exact E|]. split; [exact Hget|].
  split; [exact Hn | exact Hd].
Defined.

Lemma surrogate_token_sends_nothing_witness :
  exists e st',
    Deploy.run reliable signers_a [weth; lone_surrogate] 1 (fresh reliable 0%nat)
    = (Raise e, st')
    /\ Deploy.sent st' = []
    /\ Deploy.stdout st' = [lit "Deploying fa2"].
Proof.
  exact (surrogate_token_sends_nothing reliable signers_a [weth; lone_surrogate] 1
           (fresh reliable 0%nat) eq_refl).
Defined.

Lemma metadata_entries_are_hex_witness :
  exists meta text uri content,
    _metadata_encode Deploy.minter_metadata = Ok meta
    /\ Json.dumps 2 Deploy.minter_metadata = Ok text
    /\ meta = PyDict [(str_ "", PyStr uri); (str_ "content", PyStr content)]
    /\ hex_decode content = Ok text
    /\ List.length content = (2 * List.length text)%nat.
Proof.
  destruct minter_metadata_encoded as [meta E].
  destruct (metadata_entries_are_hex Deploy.minter_metadata meta E)
    as (text & uri & content & Ht & Hm & _ & Hc & _ & Hl & _).
  exists meta, text, uri, content. repeat split; assumption.
Defined.




Lemma token_originate_needs_contract_id_witness :
  Token.originate (demo_node [[]]) (idle (demo_node [[]]) 0%nat)
  = (Raise index_error, idle (demo_node [[]]) 1%nat).
Proof.
  apply (token_originate_needs_contract_id (demo_node [[]]) (idle (demo_node [[]]) 0%nat)
           tt (Token.initial_storage (demo_node [[]]))
           (Token.initial_storage (demo_node [[]])) [[]] 0%nat 1%nat 1%nat);
    reflexivity.
Defined.


Lemma short_addresses_share_one_item_witness :
  Deploy.minter_tokens
    [{| eth_contract := lit "0x"; eth_symbol := lit "A"; symbol := lit "WA";
        name := lit "a"; decimals := 1 |};
     {| eth_contract := lit "7"; eth_symbol := lit "B"; symbol := lit "WB";
        name := lit "b"; decimals := 2 |}] (lit "KT1fa2")
  = PyDict [(PyStr [], PyList [str_ "KT1fa2"; PyInt 1])].
Proof.
  apply (short_addresses_share_one_item
           [{| eth_contract := lit "0x"; eth_symbol := lit "A"; symbol := lit "WA";
               name := lit "a"; decimals := 1 |};
            {| eth_contract := lit "7"; eth_symbol := lit "B"; symbol := lit "WB";
               name := lit "b"; decimals := 2 |}] (lit "KT1fa2")).
  - discriminate.
  - repeat constructor.
Defined.

(** ** The minter's index and the FA2 entry it points to *)

(** X18.  The two storages agree on the tokens.  Whatever item the
    minter's [tokens] mapping holds, its second component is a position
    [j] of the list, [tokens[j]] has that item's key as its address
    without the first two characters, and the [token_metadata] of the FA2
    storage holds at [j] the entry of that same spec: its [eth_contract]
    field reads back as the address of [tokens[j]]. *)
Theorem minter_index_points_to_fa2_entry
  (tokens : list TokenType) (fa2_contract : pystr) (token_metadata : pyval)
  (key : pystr) (value : pyval) :
  Deploy.fa2_token_metadata tokens = Ok token_metadata ->
  forallb token_text tokens = true ->
  getitem (Deploy.minter_tokens tokens fa2_contract) (PyStr key) = Some value ->
  exists j z entry,
    value = PyList [PyStr fa2_contract; PyInt (Z.of_nat j)]
    /\ nth_error tokens j = Some z
    /\ skipn 2 (eth_contract z) = key
    /\ getitem token_metadata (PyInt (Z.of_nat j)) = Some entry
    /\ getitem entry (str_ "token_id") = Some (PyInt (Z.of_nat j))
    /\ decoded_field entry "eth_contract" = Some (eth_contract z).
Proof.
  intros Htm Htext Hget.
  destruct (minter_tokens_last tokens fa2_contract) as (d & E & Hnd & Hkeys & Hlast).
  rewrite E in Hget. unfold getitem in Hget.
  pose proof (dict_get_In _ PyStr key_eqb_PyStr d key value Hget) as Hin.
  assert (Hk : In key (keys d)) by (apply (in_map fst) in Hin; exact Hin).
  apply Hkeys in Hk as (i & x & Hi & Hx).
  destruct (last_position (fun z => key_eqb (PyStr (token_key z)) (PyStr key)) tokens i x Hi)
    as (j & z & _ & Hj & Hz & Hafter).
  { apply key_eqb_PyStr. exact Hx. }
  apply key_eqb_PyStr in Hz.
  assert (Hnot : forall n z', (j < n)%nat -> nth_error tokens n = Some z' ->
                              token_key z' <> token_key z).
  { intros n z' Hn Hz' Heq. specialize (Hafter n z' Hn Hz').
    rewrite Hz in Heq. apply key_eqb_PyStr in Heq. congruence. }
  specialize (Hlast j z Hj Hnot). rewrite Hz in Hlast.
  destruct (forallb token_encodable tokens) eqn:He;
    [|rewrite (fa2_token_metadata_surrogate _ He) in Htm; discriminate Htm].
  rewrite (fa2_token_metadata_encodable _ He) in Htm. apply Ok_inj in Htm.
  subst token_metadata.
  assert (Hzin : In z tokens) by (eapply nth_error_In; exact Hj).
  rewrite forallb_forall in He, Htext.
  destruct (decoded_field_entry (Z.of_nat j) z (Htext z Hzin) (He z Hzin))
    as (_ & Hc & _).
  exists j, z, (fa2_entry (Z.of_nat j) z).
  split; [congruence|]. split; [exact Hj|]. split; [exact Hz|].
  split; [exact (fa2_entry_lookup tokens j z Hj)|]. split; [reflexivity | exact Hc].
Qed.

Lemma minter_index_points_to_fa2_entry_witness :
  exists token_metadata entry,
    Deploy.fa2_token_metadata [weth; xi_token; weth] = Ok token_metadata
    /\ getitem (Deploy.minter_tokens [weth; xi_token; weth] (lit "KT1fa2")) (str_ "01")
       = Some (PyList [str_ "KT1fa2"; PyInt 2])
    /\ getitem token_metadata (PyInt 2) = Some entry
    /\ decoded_field entry "eth_contract" = Some (lit "0x01").
Proof.
  pose proof (fa2_token_metadata_encodable [weth; xi_token; weth] eq_refl) as E.
  destruct (minter_index_points_to_fa2_entry [weth; xi_token; weth] (lit "KT1fa2") _
              (lit "01") (PyList [str_ "KT1fa2"; PyInt 2]) E eq_refl eq_refl)
    as (j & z & entry & Hv & Hj & _ & Hg & _ & Hc).
  injection Hv as Hv. assert (j = 2%nat) by lia. subst j. injection Hj as <-.
  eexists. exists entry. split; [exact E|]. split; [reflexivity|].
  split; [exact Hg | exact Hc].
Defined.
